(** * The authentication layer of the job-board dashboard

    A shallow embedding of
      - [src/lib/api.js]: the transport client [apiRequest], the credential
        operations [authAPI] and [userAPI], the session store [authHelpers];
      - [components/auth/AuthModal.tsx]: [handleLogin], [handleRegister];
      - [components/auth/OTPVerificationModal.tsx]: [handleVerify],
        [handleResendOTP], [handleOtpChange], [handlePaste], the countdown;
      - [components/auth/ForgotPasswordModal.tsx]: [handleSubmit],
        [handleClose], the "send to different email" action;
      - [pages/Index.tsx]: the mount effect, [handleLoginSuccess],
        [handleLogout], the props handed to the header and to [AuthModal];
    followed by the properties the specification states about them.

    Conventions.  A JavaScript value is a [JSValue], an exception a [Thrown].
    A statement is a function in the monad [M]: it takes a world (the state
    of the component, [localStorage], the trace of observable events) to a
    world and a completion, normal or abrupt.  A handler reads the React
    state variables from the snapshot its render closed over and writes them
    through the setters, as a function component does; refs are read and
    written in place.  An [async] handler is given in two parts, up to its
    [await] and from it, and the way the awaited [fetch] settles is an
    argument of the second part. *)

From Stdlib Require Import ZArith Lia String Ascii List Bool.
From stdpp Require Import base strings list gmap pretty.

Set Warnings "-register-all".
Local Open Scope string_scope.
Local Open Scope Z_scope.

(* ===================================================================== *)
(** ** JavaScript values *)
(* ===================================================================== *)

Module JS.

(** A Number (an IEEE 754 double), by what this program observes of one.  The
    program does no arithmetic on the numbers it receives from the server:
    it tests them for truth ([+0], [-0] and [NaN] are falsy) and converts
    them to strings ([Number::toString]: "401", "0.5", "1e+21", ...).  Both
    observations are fields, so every double is a value of the type. *)
Module Number.
Record t : Type := mk
  { falsy : bool;
    toString : string }.

(** The Number [0]. *)
Definition zero : t := mk true "0".
End Number.

(** What [JSON.parse] can produce, plus [undefined].  An object is the list
    of its own properties, in enumeration order.  A string is its sequence
    of characters; the program looks at characters only to tell the ASCII
    digits from the rest, to count digits, and to search for ASCII
    substrings, which reads the same on bytes as on UTF-16 code units. *)
Inductive JSValue : Type :=
| JUndefined
| JNull
| JBool (b : bool)
| JNum (n : Number.t)
| JStr (s : string)
| JArr (items : list JSValue)
| JObj (fields : list (string * JSValue)).

(** [class APIError extends Error] with its three constructor arguments, and
    the built-in errors ([Error], [TypeError], [SyntaxError], ...), which
    carry a name and a message. *)
Inductive Thrown : Type :=
| APIError (message : string) (status : Z) (details : JSValue)
| NativeError (name : string) (message : string).

Definition Error (message : string) : Thrown := NativeError "Error" message.
Definition TypeError (message : string) : Thrown := NativeError "TypeError" message.

(** [error.message] *)
Definition message (e : Thrown) : string :=
  match e with
  | APIError m _ _ => m
  | NativeError _ m => m
  end.

(** [error.details]: only an [APIError] has the property. *)
Definition details (e : Thrown) : JSValue :=
  match e with
  | APIError _ _ d => d
  | NativeError _ _ => JUndefined
  end.

(** [error.name]: [APIError] does not set it, so it inherits ["Error"]. *)
Definition name (e : Thrown) : string :=
  match e with
  | APIError _ _ _ => "Error"
  | NativeError n _ => n
  end.

(** [error instanceof APIError] *)
Definition instanceof_APIError (e : Thrown) : bool :=
  match e with
  | APIError _ _ _ => true
  | NativeError _ _ => false
  end.

(** A completion: the value of an expression, or the exception it threw. *)
Inductive Completion (A : Type) : Type :=
| Normal (a : A)
| Throw (e : Thrown).
Arguments Normal {A} a.
Arguments Throw {A} e.

(** ToBoolean *)
Definition truthy (v : JSValue) : bool :=
  match v with
  | JUndefined | JNull => false
  | JBool b => b
  | JNum n => negb (Number.falsy n)
  | JStr s => negb (String.eqb s "")
  | JArr _ | JObj _ => true
  end.

(** [a || b] on values already evaluated. *)
Definition or_else (a b : JSValue) : JSValue := if truthy a then a else b.

Definition nullish (v : JSValue) : bool :=
  match v with
  | JUndefined | JNull => true
  | _ => false
  end.

(** [typeof v === 'string'] *)
Definition typeof_string (v : JSValue) : bool :=
  match v with
  | JStr _ => true
  | _ => false
  end.

(** Own-property lookup; a missing key reads as [undefined]. *)
Fixpoint own (k : string) (fields : list (string * JSValue)) : JSValue :=
  match fields with
  | [] => JUndefined
  | (k', v) :: rest => if String.eqb k k' then v else own k rest
  end.

Fixpoint has_own (k : string) (fields : list (string * JSValue)) : bool :=
  match fields with
  | [] => false
  | (k', _) :: rest => String.eqb k k' || has_own k rest
  end.

(** [v.k] on a value that is neither [null] nor [undefined], for the property
    names this program reads ([error], [details], [token], [user], [success],
    [message], [needsVerification]): none of them is defined by a built-in
    prototype, so primitives and arrays answer [undefined]. *)
Definition get (v : JSValue) (k : string) : JSValue :=
  match v with
  | JObj fields => own k fields
  | _ => JUndefined
  end.

(** V8's wording of the [TypeError]s below; other engines word them
    differently, the control flow is the same. *)
Definition cannot_read (v : JSValue) (k : string) : Thrown :=
  TypeError ("Cannot read properties of "
             +:+ (match v with JNull => "null" | _ => "undefined" end)
             +:+ " (reading '" +:+ k +:+ "')").

(** [v.k]: reading a property of [null] or [undefined] throws. *)
Definition get_prop (v : JSValue) (k : string) : Completion JSValue :=
  if nullish v then Throw (cannot_read v k) else Normal (get v k).

(** [v?.k] *)
Definition get_opt (v : JSValue) (k : string) : JSValue :=
  if nullish v then JUndefined else get v k.

Fixpoint join (sep : string) (l : list string) : string :=
  match l with
  | [] => ""
  | [s] => s
  | s :: rest => s +:+ sep +:+ join sep rest
  end.

Fixpoint sequence {A} (l : list (option A)) : option (list A) :=
  match l with
  | [] => Some []
  | None :: _ => None
  | Some a :: rest => option_map (cons a) (sequence rest)
  end.

(** ToString, [None] when it throws a [TypeError].  An object from JSON has
    no callable property: one that shadows [toString] has no usable
    conversion method left ([Object.prototype.valueOf] returns the object
    itself), every other one prints through [Object.prototype.toString].  An
    array prints through [join], where [null] and [undefined] are empty.  A
    number prints as [Number::toString] prints it. *)
Fixpoint ToString (v : JSValue) : option string :=
  match v with
  | JUndefined => Some "undefined"
  | JNull => Some "null"
  | JBool true => Some "true"
  | JBool false => Some "false"
  | JNum n => Some (Number.toString n)
  | JStr s => Some s
  | JArr items =>
      option_map (join ",")
        (sequence (map (fun x => if nullish x then Some "" else ToString x) items))
  | JObj fields =>
      if has_own "toString" fields then None else Some "[object Object]"
  end.

Definition cannot_convert : Thrown :=
  TypeError "Cannot convert object to primitive value".

(** [String.prototype.includes] *)
Fixpoint includes (s sub : string) : bool :=
  if String.prefix sub s then true
  else match s with
       | EmptyString => false
       | String _ rest => includes rest sub
       end.

Definition is_str (x : string) (v : JSValue) : bool :=
  match v with
  | JStr s => String.eqb s x
  | _ => false
  end.

Definition not_a_function (what : string) : Thrown :=
  TypeError (what +:+ " is not a function").

(** [v?.includes(x)] for a string [x]: a string searches for a substring, an
    array for an element, [null] and [undefined] short-circuit, and anything
    else has no [includes] to call. *)
Definition includes_opt (what : string) (v : JSValue) (x : string)
  : Completion bool :=
  match v with
  | JUndefined | JNull => Normal false
  | JStr s => Normal (includes s x)
  | JArr items => Normal (existsb (is_str x) items)
  | _ => Throw (not_a_function (what +:+ ".includes"))
  end.

(** [/\d/] on one character *)
Definition is_digit (c : ascii) : bool :=
  let n := nat_of_ascii c in (48 <=? n)%nat && (n <=? 57)%nat.

(** [s.replace(/\D/g, '')] *)
Fixpoint strip_non_digits (s : string) : string :=
  match s with
  | EmptyString => EmptyString
  | String c rest =>
      if is_digit c then String c (strip_non_digits rest)
      else strip_non_digits rest
  end.

(** [s.slice(0, n)] *)
Fixpoint slice0 (n : nat) (s : string) : string :=
  match n, s with
  | O, _ => EmptyString
  | _, EmptyString => EmptyString
  | S n', String c rest => String c (slice0 n' rest)
  end.

Fixpoint all_digits (s : string) : bool :=
  match s with
  | EmptyString => true
  | String c rest => is_digit c && all_digits rest
  end.

(** [/^\d{6}$/.test(s)] *)
Definition six_digits (s : string) : bool :=
  (String.length s =? 6)%nat && all_digits s.

End JS.

Export JS.

(* ===================================================================== *)
(** ** Requests, observable events, worlds *)
(* ===================================================================== *)

(** [body: JSON.stringify(v)] is kept as the value it serialises. *)
Inductive Body : Type :=
| JSON_stringify (v : JSValue)
| RawBody (s : string).

(** The second argument of [apiRequest]: a plain object whose keys may be
    absent. *)
Module Options.
Record t : Type := mk
  { method : option string;
    headers : option (gmap string string);
    body : option Body;
    mode : option string;
    credentials : option string }.
Definition empty : t := mk None None None None None.
End Options.

(** What reaches [fetch(url, config)]. *)
Module Request.
Record t : Type := mk
  { url : string;
    method : string;
    headers : gmap string string;
    mode : string;
    credentials : string;
    body : option Body }.
End Request.

(** The [Response] of [fetch], as far as [apiRequest] looks at it: the status
    and what [response.json()] and [response.text()] settle with, in the
    order the code calls them ([text()] only after [json()] rejected). *)
Module Response.
Record t : Type := mk
  { status : Z;
    json : Completion JSValue;
    text : Completion string }.
(** [response.ok] *)
Definition ok (r : t) : bool := (200 <=? status r) && (status r <=? 299).
End Response.

(** How the promise of [fetch] settles. *)
Inductive FetchOutcome : Type :=
| Rejected (e : Thrown)
| Responded (r : Response.t).

(** Everything a component does to its surroundings. *)
Inductive Event : Type :=
| Fetch (req : Request.t)
| ConsoleLog (label : string)
| ConsoleWarn (label : string)
| ConsoleError (label : string)
| Toast (title : string) (description : JSValue) (destructive : bool)
| PreventDefault
| FocusInput
| OnClose
| OnLoginSuccess (user token : JSValue)
| OnVerificationSuccess.

(** A component instance in its surroundings: its own state (hooks and refs),
    the browser's [localStorage], and the events so far, oldest first. *)
Record World (S : Type) : Type := mkWorld
  { component : S;
    localStorage : gmap string string;
    trace : list Event }.
Arguments mkWorld {S} _ _ _.
Arguments component {S} _.
Arguments localStorage {S} _.
Arguments trace {S} _.

(** Statements: a world transformer with a completion. *)
Definition M (S A : Type) : Type := World S → World S * Completion A.

Section Monad.
Context {S : Type}.

Definition ret {A} (a : A) : M S A := λ w, (w, Normal a).
Definition throw {A} (e : Thrown) : M S A := λ w, (w, Throw e).
Definition bind {A B} (m : M S A) (k : A → M S B) : M S B :=
  λ w, match m w with
       | (w', Normal a) => k a w'
       | (w', Throw e) => (w', Throw e)
       end.

(** [try { m } catch (e) { h e }] *)
Definition try_catch {A} (m : M S A) (h : Thrown → M S A) : M S A :=
  λ w, match m w with
       | (w', Throw e) => h e w'
       | r => r
       end.

(** [try { m } finally { f }] *)
Definition finally {A} (m : M S A) (f : M S unit) : M S A :=
  λ w, match m w with
       | (w', c) =>
           match f w' with
           | (w'', Normal _) => (w'', c)
           | (w'', Throw e) => (w'', Throw e)
           end
       end.

Definition lift {A} (c : Completion A) : M S A := λ w, (w, c).

Definition emit (e : Event) : M S unit :=
  λ w, (mkWorld (component w) (localStorage w) (trace w ++ [e]), Normal tt).

(** A state setter or a ref assignment. *)
Definition update (f : S → S) : M S unit :=
  λ w, (mkWorld (f (component w)) (localStorage w) (trace w), Normal tt).

Definition read {A} (f : S → A) : M S A := λ w, (w, Normal (f (component w))).

Definition getItem (k : string) : M S (option string) :=
  λ w, (w, Normal (localStorage w !! k)).

Definition setItem (k v : string) : M S unit :=
  λ w, (mkWorld (component w) (<[k := v]> (localStorage w)) (trace w), Normal tt).

Definition removeItem (k : string) : M S unit :=
  λ w, (mkWorld (component w) (delete k (localStorage w)) (trace w), Normal tt).

Definition toast (title : string) (description : JSValue) (destructive : bool)
  : M S unit := emit (Toast title description destructive).

(** The world a statement leaves, and its completion. *)
Definition exec {A} (m : M S A) (w : World S) : World S := fst (m w).
Definition completion {A} (m : M S A) (w : World S) : Completion A := snd (m w).
End Monad.

Notation "x <- m ;; k" := (bind m (λ x, k))
  (at level 100, m at next level, right associativity).
Notation "m ;;; k" := (bind m (λ _, k))
  (at level 100, right associativity).

(* ===================================================================== *)
(** ** [src/lib/api.js] *)
(* ===================================================================== *)

(** [import.meta.env] *)
Record ImportMetaEnv : Type := mkEnv
  { PROD : bool;
    VITE_API_URL : option string }.

Definition API_BASE_URL (env : ImportMetaEnv) : string :=
  if PROD env then
    match VITE_API_URL env with
    | Some u => if String.eqb u "" then "http://localhost:4000" else u
    | None => "http://localhost:4000"
    end
  else "/api".

(** The literal [{ 'Content-Type': ..., 'Accept': ..., ...options.headers }]:
    later keys win, so the caller's entries go on the left of the
    left-biased union. *)
Definition default_headers : gmap string string :=
  <["Content-Type" := "application/json"]>
    (<["Accept" := "application/json"]> ∅).

Definition spread_headers (options : Options.t) : gmap string string :=
  default ∅ (Options.headers options) ∪ default_headers.

(** The literal [config]: [method], [headers], [mode], [credentials], then
    [...options], which binds again every key that [options] carries,
    [headers] included. *)
Definition config_literal (url : string) (options : Options.t) : Request.t :=
  {| Request.url := url;
     Request.method := default "POST" (Options.method options);
     Request.headers := default (spread_headers options) (Options.headers options);
     Request.mode := default "cors" (Options.mode options);
     Request.credentials := default "include" (Options.credentials options);
     Request.body := Options.body options |}.

(** [if (token)] on the result of [localStorage.getItem]. *)
Definition token_truthy (token : option string) : bool :=
  match token with
  | Some t => negb (String.eqb t "")
  | None => false
  end.

(** [if (token) { config.headers.Authorization = `Bearer ${token}` }] *)
Definition add_auth (token : option string) (c : Request.t) : Request.t :=
  if token_truthy token then
    {| Request.url := Request.url c;
       Request.method := Request.method c;
       Request.headers :=
         <["Authorization" := "Bearer " +:+ default "" token]> (Request.headers c);
       Request.mode := Request.mode c;
       Request.credentials := Request.credentials c;
       Request.body := Request.body c |}
  else c.

(** [apiRequest] up to the call of [fetch]: the request it passes. *)
Definition build_request (env : ImportMetaEnv) (ls : gmap string string)
    (endpoint : string) (options : Options.t) : Request.t :=
  add_auth (ls !! "auth_token")
           (config_literal (API_BASE_URL env +:+ endpoint) options).

(** [(data && data.error) || (typeof data === 'string' ? data : 'Request failed')] *)
Definition error_message_of (data : JSValue) : JSValue :=
  or_else (if truthy data then get data "error" else data)
          (if typeof_string data then data else JStr "Request failed").

(** [new APIError(message, status, details)]: [super(message)] converts the
    message to a string. *)
Definition new_APIError (msg : JSValue) (st : Z) (det : JSValue)
  : Completion Thrown :=
  match ToString msg with
  | Some m => Normal (APIError m st det)
  | None => Throw cannot_convert
  end.

Section Api.
Context {S : Type}.
Variable env : ImportMetaEnv.

(** The inner [try]: [response.json()], else [response.text()]. *)
Definition read_body (r : Response.t) : M S JSValue :=
  try_catch (lift (Response.json r))
            (λ _, s <- lift (Response.text r) ;; ret (JStr s)).

(** [apiRequest] from the moment [fetch] has settled. *)
Definition settle (net : FetchOutcome) : M S JSValue :=
  try_catch
    (match net with
     | Rejected e => throw e
     | Responded r =>
         data <- read_body r ;;
         if negb (Response.ok r) then
           emit (ConsoleError "API error:") ;;;
           let msg := error_message_of data in
           det <- lift (get_prop data "details") ;;
           e <- lift (new_APIError msg (Response.status r) (or_else det data)) ;;
           throw e
         else
           emit (ConsoleLog "API success:") ;;;
           ret data
     end)
    (λ error,
       if instanceof_APIError error then throw error
       else
         emit (ConsoleError "Network error:") ;;;
         throw (APIError "Network error" 0 (JStr (message error)))).

(** [apiRequest(endpoint, options)] up to [await fetch(url, config)]: the
    request leaves. *)
Definition apiRequest_call (endpoint : string) (options : Options.t)
  : M S unit :=
  token <- getItem "auth_token" ;;
  emit (Fetch (add_auth token
                 (config_literal (API_BASE_URL env +:+ endpoint) options))).

(** [apiRequest(endpoint, options)], with the way [fetch] settles as an
    argument. *)
Definition apiRequest (endpoint : string) (options : Options.t)
    (net : FetchOutcome) : M S JSValue :=
  apiRequest_call endpoint options ;;;
  settle net.

Definition post (v : JSValue) : Options.t :=
  Options.mk (Some "POST") None (Some (JSON_stringify v)) None None.

(** [authAPI].  The three operations the modal controllers await while
    other events may arrive are also given up to the [await]. *)
Definition register (userData : JSValue) :=
  apiRequest "/auth/register" (post userData).
Definition login (credentials : JSValue) :=
  apiRequest "/auth/login" (post credentials).

Definition verifyEmail_call (email otp : string) : M S unit :=
  apiRequest_call "/auth/verify-email"
    (post (JObj [("email", JStr email); ("otp", JStr otp)])).
Definition verifyEmail (email otp : string) (net : FetchOutcome) :=
  verifyEmail_call email otp ;;; settle net.

Definition forgotPassword_call (email : string) : M S unit :=
  apiRequest_call "/auth/forgot-password" (post (JObj [("email", JStr email)])).
Definition forgotPassword (email : string) (net : FetchOutcome) :=
  forgotPassword_call email ;;; settle net.

Definition resendOtp_call (email : string) : M S unit :=
  apiRequest_call "/auth/resend-otp" (post (JObj [("email", JStr email)])).
Definition resendOtp (email : string) (net : FetchOutcome) :=
  resendOtp_call email ;;; settle net.

(** [userAPI] *)
Definition getProfile := apiRequest "/users/me" Options.empty.
Definition updateProfile (profileData : JSValue) :=
  apiRequest "/users/me"
    (Options.mk (Some "PUT") None (Some (JSON_stringify profileData)) None None).

(** [authHelpers] *)
Definition setToken (token : string) : M S unit := setItem "auth_token" token.
Definition getToken : M S (option string) := getItem "auth_token".
Definition removeToken : M S unit := removeItem "auth_token".
Definition isAuthenticated : M S bool :=
  token <- getItem "auth_token" ;; ret (token_truthy token).
End Api.



(* ===================================================================== *)
(** ** [components/auth/AuthModal.tsx] *)
(* ===================================================================== *)

(** [const { token, ...user } = response], the rest object: the own
    enumerable properties other than [token], in enumeration order. *)
Definition rest_without (k : string) (v : JSValue) : JSValue :=
  match v with
  | JObj fields => JObj (List.filter (λ kv, negb (String.eqb (fst kv) k)) fields)
  | JArr items => JObj (imap (λ i x, (pretty i, x)) items)
  | JStr s =>
      JObj (imap (λ i c, (pretty i, JStr (String c EmptyString)))
                 (list_ascii_of_string s))
  | _ => JObj []
  end.

Definition cannot_destructure (v : JSValue) : Thrown :=
  TypeError ("Cannot destructure property 'token' of 'response' as it is "
             +:+ (match v with JNull => "null" | _ => "undefined" end) +:+ ".").

Definition destructure_token (response : JSValue)
  : Completion (JSValue * JSValue) :=
  if nullish response then Throw (cannot_destructure response)
  else Normal (get response "token", rest_without "token" response).

(** [Object.values(v)] for a value whose [typeof] is ['object'] *)
Definition Object_values (v : JSValue) : list JSValue :=
  match v with
  | JObj fields => map snd fields
  | JArr items => items
  | _ => []
  end.

(** [Array.prototype.flat()], one level deep *)
Definition flat (l : list JSValue) : list JSValue :=
  concat (map (λ x, match x with JArr xs => xs | _ => [x] end) l).

(** [Array.prototype.join(sep)] *)
Definition join_values (sep : string) (l : list JSValue) : Completion string :=
  match sequence (map (λ x, if nullish x then Some "" else ToString x) l) with
  | Some parts => Normal (join sep parts)
  | None => Throw cannot_convert
  end.

(** [String(v)] and the conversion [localStorage.setItem] applies *)
Definition to_string (v : JSValue) : Completion string :=
  match ToString v with
  | Some s => Normal s
  | None => Throw cannot_convert
  end.

(** [typeof v === 'object'] *)
Definition typeof_object (v : JSValue) : bool :=
  match v with
  | JNull | JArr _ | JObj _ => true
  | _ => false
  end.

Module AuthModal.

Record State : Type := mk
  { activeTab : string;
    showPassword : bool;
    isLoading : bool;
    isOTPModalOpen : bool;
    isForgotPasswordOpen : bool;
    pendingVerificationEmail : string }.

(** [useState] initial values *)
Definition initial : State := mk "login" false false false false "".

Definition setActiveTab (v : string) : M State unit :=
  update (λ s, mk v (showPassword s) (isLoading s) (isOTPModalOpen s)
                  (isForgotPasswordOpen s) (pendingVerificationEmail s)).
Definition setIsLoading (v : bool) : M State unit :=
  update (λ s, mk (activeTab s) (showPassword s) v (isOTPModalOpen s)
                  (isForgotPasswordOpen s) (pendingVerificationEmail s)).
Definition setIsOTPModalOpen (v : bool) : M State unit :=
  update (λ s, mk (activeTab s) (showPassword s) (isLoading s) v
                  (isForgotPasswordOpen s) (pendingVerificationEmail s)).
Definition setIsForgotPasswordOpen (v : bool) : M State unit :=
  update (λ s, mk (activeTab s) (showPassword s) (isLoading s) (isOTPModalOpen s)
                  v (pendingVerificationEmail s)).
Definition setPendingVerificationEmail (v : string) : M State unit :=
  update (λ s, mk (activeTab s) (showPassword s) (isLoading s) (isOTPModalOpen s)
                  (isForgotPasswordOpen s) v).

(** The registration form, as [FormData] hands it over. *)
Record RegisterForm : Type := mkForm
  { email : string;
    password : string;
    first_name : string;
    last_name : string;
    phone : string;
    role : string }.

Definition userData (f : RegisterForm) : JSValue :=
  JObj [("email", JStr (email f));
        ("password", JStr (password f));
        ("first_name", JStr (first_name f));
        ("last_name", JStr (last_name f));
        ("phone", or_else (JStr (phone f)) JUndefined);
        ("role", JStr (role f))].

Section Handlers.
Variable env : ImportMetaEnv.

Definition handleLogin (email password : string) (net : FetchOutcome)
  : M State unit :=
  emit PreventDefault ;;;
  setIsLoading true ;;;
  let credentials := JObj [("email", JStr email); ("password", JStr password)] in
  finally
    (try_catch
       (response <- login env credentials net ;;
        tu <- lift (destructure_token response) ;;
        let token := fst tu in
        let user := snd tu in
        if negb (truthy token) then
          throw (Error "No authentication token received")
        else
          stored <- lift (to_string token) ;;
          setToken stored ;;;
          emit (OnLoginSuccess user token) ;;;
          toast "Welcome back!" (JStr "You have successfully signed in.") false ;;;
          emit OnClose)
       (λ error,
          emit (ConsoleError "Login error:") ;;;
          unverified <-
            (if includes (message error) "Email not verified" then ret true
             else lift (includes_opt "error.details" (details error) "not verified")) ;;
          if (unverified : bool) then
            setPendingVerificationEmail email ;;;
            setIsOTPModalOpen true ;;;
            setIsLoading false
          else
            toast "Sign in failed"
              (or_else (JStr (message error))
                 (JStr "Please check your credentials and try again."))
              true))
    (setIsLoading false).

(** The chain that derives the message of a failed registration.  No error
    this code can catch has a [response] property, so the two clauses on
    [error.response?.data] never apply. *)
Definition registration_error_message (error : Thrown) : Completion string :=
  if includes (message error) "already exists" then
    Normal "An account with this email already exists. Please sign in or use a different email."
  else if includes (message error) "network" || String.eqb (name error) "TypeError" then
    Normal "Unable to connect to the server. Please check your internet connection and ensure the backend is running."
  else if truthy (details error) then
    match
      (if typeof_object (details error)
       then join_values " " (flat (Object_values (details error)))
       else to_string (details error))
    with
    | Normal errors => Normal (if String.eqb errors "" then message error else errors)
    | Throw e => Throw e
    end
  else if negb (String.eqb (message error) "") then Normal (message error)
  else Normal "Please check your information and try again.".

Definition handleRegister (form : RegisterForm) (net : FetchOutcome)
  : M State unit :=
  emit PreventDefault ;;;
  setIsLoading true ;;;
  emit (ConsoleLog "Attempting to register user with data:") ;;;
  finally
    (try_catch
       (response <- register env (userData form) net ;;
        emit (ConsoleLog "Registration API response:") ;;;
        if truthy (get_opt response "needsVerification") then
          setPendingVerificationEmail (email form) ;;;
          setIsOTPModalOpen true ;;;
          toast "Account created!"
            (JStr "Please check your email and enter the verification code.") false
        else if truthy (get_opt response "token") then
          stored <- lift (to_string (get response "token")) ;;
          setToken stored ;;;
          emit (OnLoginSuccess (get response "user") (get response "token")) ;;;
          toast "Welcome to CareerBridge!"
            (JStr "Your account has been created successfully.") false ;;;
          emit OnClose
        else
          emit (ConsoleWarn "Unexpected response format:") ;;;
          throw (Error "Unexpected response from server"))
       (λ error,
          emit (ConsoleError "Registration error details:") ;;;
          errorMessage <- lift (registration_error_message error) ;;
          toast "Registration failed" (JStr errorMessage) true))
    (setIsLoading false).

Definition handleVerificationSuccess : M State unit :=
  setIsOTPModalOpen false ;;;
  setActiveTab "login" ;;;
  toast "Email verified!" (JStr "You can now sign in to your account.") false.

Definition handleForgotPassword : M State unit :=
  emit OnClose ;;;
  setIsForgotPasswordOpen true.
End Handlers.

End AuthModal.

(* ===================================================================== *)
(** ** [components/auth/OTPVerificationModal.tsx] *)
(* ===================================================================== *)

Module OTPModal.

(** The four [useState] cells. *)
Record Hooks : Type := mkHooks
  { otp : string;
    isLoading : bool;
    isResending : bool;
    timeLeft : Z }.

(** A mounted instance: the hooks, the two refs, the interval timers of the
    window that are still running, the next timer handle (handles are
    positive), and the invocations of the two async handlers that are
    suspended at their [await]. *)
Record Instance : Type := mk
  { hooks : Hooks;
    countdownRef : option nat;
    inputRef : bool;
    intervals : gset nat;
    nextHandle : nat;
    verifying : nat;
    resending : nat }.

Definition initial : Instance :=
  mk (mkHooks "" false false 0) None true ∅ 1 0 0.

Definition with_hooks (f : Hooks → Hooks) (c : Instance) : Instance :=
  mk (f (hooks c)) (countdownRef c) (inputRef c) (intervals c) (nextHandle c)
     (verifying c) (resending c).

Definition setOtp (v : string) : M Instance unit :=
  update (with_hooks (λ h, mkHooks v (isLoading h) (isResending h) (timeLeft h))).
Definition setIsLoading (v : bool) : M Instance unit :=
  update (with_hooks (λ h, mkHooks (otp h) v (isResending h) (timeLeft h))).
Definition setIsResending (v : bool) : M Instance unit :=
  update (with_hooks (λ h, mkHooks (otp h) (isLoading h) v (timeLeft h))).
Definition setTimeLeft (v : Z) : M Instance unit :=
  update (with_hooks (λ h, mkHooks (otp h) (isLoading h) (isResending h) v)).

(** [countdownRef.current = r] *)
Definition setCountdownRef (r : option nat) : M Instance unit :=
  update (λ c, mk (hooks c) r (inputRef c) (intervals c) (nextHandle c)
                  (verifying c) (resending c)).

(** [setInterval(callback, 1000)]: a fresh handle starts running. *)
Definition setInterval : M Instance nat :=
  h <- read nextHandle ;;
  update (λ c, mk (hooks c) (countdownRef c) (inputRef c)
                  ({[h]} ∪ intervals c) (Datatypes.S h)
                  (verifying c) (resending c)) ;;;
  ret h.

Definition clearInterval (h : nat) : M Instance unit :=
  update (λ c, mk (hooks c) (countdownRef c) (inputRef c)
                  (intervals c ∖ {[h]}) (nextHandle c)
                  (verifying c) (resending c)).

Definition suspend_verify : M Instance unit :=
  update (λ c, mk (hooks c) (countdownRef c) (inputRef c) (intervals c)
                  (nextHandle c) (Datatypes.S (verifying c)) (resending c)).
Definition resume_verify : M Instance unit :=
  update (λ c, mk (hooks c) (countdownRef c) (inputRef c) (intervals c)
                  (nextHandle c) (Nat.pred (verifying c)) (resending c)).
Definition suspend_resend : M Instance unit :=
  update (λ c, mk (hooks c) (countdownRef c) (inputRef c) (intervals c)
                  (nextHandle c) (verifying c) (Datatypes.S (resending c))).
Definition resume_resend : M Instance unit :=
  update (λ c, mk (hooks c) (countdownRef c) (inputRef c) (intervals c)
                  (nextHandle c) (verifying c) (Nat.pred (resending c))).

(** [if (countdownRef.current)]: [null] and the handle 0 are falsy. *)
Definition ref_truthy (r : option nat) : bool :=
  match r with
  | Some h => negb (h =? 0)%nat
  | None => false
  end.

(** [if (countdownRef.current) { clearInterval(countdownRef.current) }] *)
Definition clear_countdown : M Instance unit :=
  r <- read countdownRef ;;
  if ref_truthy r then clearInterval (default 0%nat r) else ret tt.

(** [error.response?.data?.error] is [undefined] for every error these
    handlers can catch, so the message is [error.message] unless empty. *)
Definition message_or (fallback : string) (error : Thrown) : string :=
  if String.eqb (message error) "" then fallback else message error.

(** [response?.success || response?.message] *)
Definition acknowledged (response : JSValue) : bool :=
  truthy (or_else (get_opt response "success") (get_opt response "message")).

Section Handlers.
Variable env : ImportMetaEnv.
Variable email : string.   (* the [email] prop *)

(** *** [handleVerify].  [snap] is the [otp] the render closed over. *)

(** Up to the [await]; answers whether the handler is now suspended. *)
Definition handleVerify_begin (snap : Hooks) : M Instance bool :=
  emit PreventDefault ;;;
  if negb (String.length (otp snap) =? 6)%nat || negb (six_digits (otp snap)) then
    toast "Invalid OTP" (JStr "Please enter a valid 6-digit code.") true ;;;
    ret false
  else
    setIsLoading true ;;;
    verifyEmail_call env email (otp snap) ;;;
    ret true.

(** From the [await] on. *)
Definition handleVerify_resume (net : FetchOutcome) : M Instance unit :=
  finally
    (try_catch
       (response <- settle net ;;
        if acknowledged response then
          toast "Email verified!"
            (or_else (get response "message")
               (JStr "Your account has been successfully verified. You can now sign in."))
            false ;;;
          emit OnVerificationSuccess ;;;
          emit OnClose
        else
          throw (Error "Verification failed. Please try again."))
       (λ error,
          emit (ConsoleError "Verification error:") ;;;
          toast "Verification failed"
            (JStr (message_or "Invalid or expired OTP code. Please try again." error))
            true ;;;
          mounted <- read inputRef ;;
          if (mounted : bool) then emit FocusInput else ret tt))
    (setIsLoading false).

(** The whole handler, with the way its request settles. *)
Definition handleVerify (snap : Hooks) (net : FetchOutcome) : M Instance unit :=
  go <- handleVerify_begin snap ;;
  if (go : bool) then handleVerify_resume net else ret tt.

(** *** [handleResendOTP] *)

Definition handleResendOTP_begin (snap : Hooks) : M Instance bool :=
  if isResending snap || (0 <? timeLeft snap) then ret false
  else
    setIsResending true ;;;
    resendOtp_call env email ;;;
    ret true.

Definition handleResendOTP_resume (net : FetchOutcome) : M Instance unit :=
  finally
    (try_catch
       (response <- settle net ;;
        if acknowledged response then
          toast "OTP resent"
            (or_else (get response "message")
               (JStr "A new verification code has been sent to your email."))
            false ;;;
          clear_countdown ;;;
          setTimeLeft 60 ;;;
          h <- setInterval ;;
          setCountdownRef (Some h)
        else
          throw (Error "Failed to resend OTP"))
       (λ error,
          emit (ConsoleError "Resend OTP error:") ;;;
          toast "Error"
            (JStr (message_or "Failed to resend verification code. Please try again." error))
            true))
    (setIsResending false).

Definition handleResendOTP (snap : Hooks) (net : FetchOutcome) : M Instance unit :=
  go <- handleResendOTP_begin snap ;;
  if (go : bool) then handleResendOTP_resume net else ret tt.

(** The interval callback: [setTimeLeft((prev) => ...)], run on the
    current value. *)
Definition countdown_tick : M Instance unit :=
  prev <- read (λ c, timeLeft (hooks c)) ;;
  if prev <=? 1 then
    r <- read countdownRef ;;
    (if ref_truthy r then
       clearInterval (default 0%nat r) ;;;
       setCountdownRef None
     else ret tt) ;;;
    setTimeLeft 0
  else setTimeLeft (prev - 1).

(** The cleanup of the first [useEffect], run on unmount. *)
Definition cleanup : M Instance unit := clear_countdown.

(** *** [handleOtpChange] and [handlePaste].  [handleVerify] is the
    closure of the same render, so it sees [snap], not the value just
    passed to [setOtp]. *)

Definition accumulate (input : string) : string :=
  slice0 6 (strip_non_digits input).

Definition handleOtpChange_begin (snap : Hooks) (input : string)
  : M Instance bool :=
  let value := accumulate input in
  setOtp value ;;;
  if (String.length value =? 6)%nat then handleVerify_begin snap
  else ret false.

Definition handleOtpChange (snap : Hooks) (input : string) (net : FetchOutcome)
  : M Instance unit :=
  go <- handleOtpChange_begin snap input ;;
  if (go : bool) then handleVerify_resume net else ret tt.

Definition handlePaste_begin (snap : Hooks) (clipboard : string)
  : M Instance bool :=
  emit PreventDefault ;;;
  let pastedData := accumulate clipboard in
  if negb (String.eqb pastedData "") then
    setOtp pastedData ;;;
    if (String.length pastedData =? 6)%nat then handleVerify_begin snap
    else ret false
  else ret false.

Definition handlePaste (snap : Hooks) (clipboard : string) (net : FetchOutcome)
  : M Instance unit :=
  go <- handlePaste_begin snap clipboard ;;
  if (go : bool) then handleVerify_resume net else ret tt.

(** *** The instance as a machine.  An event handler runs against the
    render of the current state; a settled request resumes one suspended
    invocation; an interval that is still running fires. *)
Inductive Input : Type :=
| Change (input : string)
| Paste (clipboard : string)
| Submit
| ClickResend
| VerifySettles (net : FetchOutcome)
| ResendSettles (net : FetchOutcome)
| Tick (handle : nat).

Definition render (w : World Instance) : Hooks := hooks (component w).

Definition suspend_if (go : bool) (s : M Instance unit) : M Instance unit :=
  if go then s else ret tt.

Definition react (i : Input) : M Instance unit :=
  λ w,
    match i with
    | Change input =>
        (go <- handleOtpChange_begin (render w) input ;; suspend_if go suspend_verify) w
    | Paste clipboard =>
        (go <- handlePaste_begin (render w) clipboard ;; suspend_if go suspend_verify) w
    | Submit =>
        (go <- handleVerify_begin (render w) ;; suspend_if go suspend_verify) w
    | ClickResend =>
        (go <- handleResendOTP_begin (render w) ;; suspend_if go suspend_resend) w
    | VerifySettles net =>
        if (0 <? verifying (component w))%nat
        then (resume_verify ;;; handleVerify_resume net) w
        else (w, Normal tt)
    | ResendSettles net =>
        if (0 <? resending (component w))%nat
        then (resume_resend ;;; handleResendOTP_resume net) w
        else (w, Normal tt)
    | Tick handle =>
        if decide (handle ∈ intervals (component w))
        then countdown_tick w
        else (w, Normal tt)
    end.

Definition step (w : World Instance) (i : Input) : World Instance :=
  exec (react i) w.

Definition run (w : World Instance) (inputs : list Input) : World Instance :=
  fold_left step inputs w.
End Handlers.

End OTPModal.

(* ===================================================================== *)
(** ** [components/auth/ForgotPasswordModal.tsx] *)
(* ===================================================================== *)

Module ForgotPasswordModal.

Record State : Type := mk
  { email : string;
    isLoading : bool;
    isSuccess : bool }.

Definition initial : State := mk "" false false.

Definition setEmail (v : string) : M State unit :=
  update (λ s, mk v (isLoading s) (isSuccess s)).
Definition setIsLoading (v : bool) : M State unit :=
  update (λ s, mk (email s) v (isSuccess s)).
Definition setIsSuccess (v : bool) : M State unit :=
  update (λ s, mk (email s) (isLoading s) v).

(** The three states of the recovery flow, read off the state cells the way
    the component renders them: the confirmation card when [isSuccess], else
    the form, whose button says "Sending..." while [isLoading]. *)
Inductive Phase : Type := Entering | Submitting | Sent.

Definition phase (s : State) : Phase :=
  if isSuccess s then Sent
  else if isLoading s then Submitting
  else Entering.

Section Handlers.
Variable env : ImportMetaEnv.

Definition handleSubmit_begin (snap : State) : M State unit :=
  emit PreventDefault ;;;
  setIsLoading true ;;;
  forgotPassword_call env (email snap).

Definition handleSubmit_resume (net : FetchOutcome) : M State unit :=
  finally
    (try_catch
       (settle net ;;;
        setIsSuccess true ;;;
        toast "Reset link sent"
          (JStr "Check your email for password reset instructions.") false)
       (λ error,
          toast "Failed to send reset link"
            (or_else (JStr (message error))
               (JStr "Please check your email address and try again."))
            true))
    (setIsLoading false).

Definition handleSubmit (snap : State) (net : FetchOutcome) : M State unit :=
  handleSubmit_begin snap ;;;
  handleSubmit_resume net.

Definition handleClose : M State unit :=
  setEmail "" ;;;
  setIsSuccess false ;;;
  emit OnClose.


(** [onChange={(e) => setEmail(e.target.value)}] *)
Definition onEmailChange (v : string) : M State unit := setEmail v.
End Handlers.

End ForgotPasswordModal.

(* ===================================================================== *)
(** ** [pages/Index.tsx], and how the components are wired *)
(* ===================================================================== *)

Module Index.

Record State : Type := mk
  { isAuthModalOpen : bool;
    isAuthenticated : bool;
    user : JSValue }.

(** [useState] initial values; [user] starts [undefined]. *)
Definition initial : State := mk false false JUndefined.

Definition setIsAuthModalOpen (v : bool) : M State unit :=
  update (λ s, mk v (isAuthenticated s) (user s)).
Definition setIsAuthenticated (v : bool) : M State unit :=
  update (λ s, mk (isAuthModalOpen s) v (user s)).
Definition setUser (v : JSValue) : M State unit :=
  update (λ s, mk (isAuthModalOpen s) (isAuthenticated s) v).

(** The effect run on mount: [setIsAuthenticated(!!authHelpers.getToken())] *)
Definition onMount : M State unit :=
  token <- getToken ;;
  setIsAuthenticated (token_truthy token).

Definition handleLoginSuccess (userData token : JSValue) : M State unit :=
  setUser userData ;;;
  setIsAuthenticated true ;;;
  setIsAuthModalOpen false.

Definition handleLogout : M State unit :=
  removeToken ;;;
  setUser JUndefined ;;;
  setIsAuthenticated false ;;;
  toast "Signed out" (JStr "You have been successfully signed out.") false.

Definition quote : string := String "034"%char EmptyString.

(** [`Searching for "${query}" in ${location || 'all locations'}`] *)
Definition search_description (query location : string) : string :=
  "Searching for " +:+ quote +:+ query +:+ quote +:+ " in "
  +:+ (if String.eqb location "" then "all locations" else location).

Definition handleSearch (query location : string) : M State unit :=
  emit (ConsoleLog "Search:") ;;;
  toast "Search initiated" (JStr (search_description query location)) false.

(** [onLogin] of the header and [onGetStarted] of the hero section *)
Definition openAuthModal : M State unit := setIsAuthModalOpen true.

(** The [user] prop handed to the header:
    [user ? { name: `${user.first_name} ${user.last_name}`, role: user.role } : undefined] *)
Definition header_user (s : State) : Completion JSValue :=
  if truthy (user s) then
    match ToString (get (user s) "first_name"), ToString (get (user s) "last_name") with
    | Some first, Some last =>
        Normal (JObj [("name", JStr (first +:+ " " +:+ last));
                      ("role", get (user s) "role")])
    | _, _ => Throw cannot_convert
    end
  else Normal JUndefined.

(** The props of [AuthModal] as the page binds them:
    [onClose={() => setIsAuthModalOpen(false)}],
    [onLoginSuccess={handleLoginSuccess}]. *)
Definition onAuthModal (e : Event) : M State unit :=
  match e with
  | OnLoginSuccess userData token => handleLoginSuccess userData token
  | OnClose => setIsAuthModalOpen false
  | _ => ret tt
  end.

End Index.

(** The props of [OTPVerificationModal] and [ForgotPasswordModal] as
    [AuthModal] binds them: [onClose={() => setIsOTPModalOpen(false)}],
    [onVerificationSuccess={handleVerificationSuccess}], and
    [onClose={() => setIsForgotPasswordOpen(false)}]. *)
Definition onOTPModal (e : Event) : M AuthModal.State unit :=
  match e with
  | OnVerificationSuccess => AuthModal.handleVerificationSuccess
  | OnClose => AuthModal.setIsOTPModalOpen false
  | _ => ret tt
  end.

Definition onForgotPasswordModal (e : Event) : M AuthModal.State unit :=
  match e with
  | OnClose => AuthModal.setIsForgotPasswordOpen false
  | _ => ret tt
  end.

(** The callbacks a child called, in order, run on its parent. *)
Fixpoint deliver {P} (wire : Event → M P unit) (evs : list Event) : M P unit :=
  match evs with
  | [] => ret tt
  | e :: rest => wire e ;;; deliver wire rest
  end.

(** The parent after a handler of its child ran: the callbacks among the
    events the child added are delivered, on the [localStorage] the child
    left (none of the callbacks bound above reads it). *)
Definition after_child {P C A} (wire : Event → M P unit) (child : M C A)
    (wc : World C) (wp : World P) : World P :=
  let wc' := exec child wc in
  exec (deliver wire (drop (length (trace wc)) (trace wc')))
       (mkWorld (component wp) (localStorage wc') (trace wp)).

(* ===================================================================== *)
(** ** Vocabulary of the properties *)
(* ===================================================================== *)

(** *** Transport *)

(** The body [apiRequest] works with once the response is in: the parsed
    JSON, else the text; nothing when both reads reject. *)
Definition body_of (r : Response.t) : option JSValue :=
  match Response.json r with
  | Normal v => Some v
  | Throw _ =>
      match Response.text r with
      | Normal t => Some (JStr t)
      | Throw _ => None
      end
  end.

(** A world after more events. *)
Definition log {S} (evs : list Event) (w : World S) : World S :=
  mkWorld (component w) (localStorage w) (trace w ++ evs).

Definition is_fetch (e : Event) : bool :=
  match e with
  | Fetch _ => true
  | _ => false
  end.

(** A world with nothing in it, to read off what a statement logs. *)
Definition nowhere : World unit := mkWorld tt ∅ [].
Definition settle_events (net : FetchOutcome) : list Event :=
  trace (exec (settle net) nowhere).
Definition settle_completion (net : FetchOutcome) : Completion JSValue :=
  completion (settle net) nowhere.

(** "The field is present": an own property of the parsed object. *)
Definition present (k : string) (data : JSValue) : bool :=
  match data with
  | JObj fields => has_own k fields
  | _ => false
  end.

Definition text_or_generic (data : JSValue) : string :=
  match data with
  | JStr t => t
  | _ => "Request failed"
  end.

(** The error of a rejected request as the specification words it: the
    [error] field if present, else the text, else the generic string; the
    [details] field if present, else the whole body. *)
Definition stated_message (data : JSValue) : option string :=
  if present "error" data then ToString (get data "error")
  else Some (text_or_generic data).
Definition stated_details (data : JSValue) : JSValue :=
  if present "details" data then get data "details" else data.

(** The same with "present" read the way [||] reads it: truthy. *)
Definition classified_message (data : JSValue) : option string :=
  if truthy (get data "error") then ToString (get data "error")
  else Some (text_or_generic data).
Definition classified_details (data : JSValue) : JSValue :=
  if truthy (get data "details") then get data "details" else data.

(** Sample surroundings for the closed examples. *)
Definition dev : ImportMetaEnv := mkEnv false None.
Definition body_already_read : Thrown := TypeError "body stream already read".
Definition json_response (st : Z) (v : JSValue) : FetchOutcome :=
  Responded (Response.mk st (Normal v) (Throw body_already_read)).

(** *** Login and registration *)

(** The events of a registration that is handed to the verification flow. *)
Definition registered_events env (form : AuthModal.RegisterForm)
    (ls : gmap string string) : list Event :=
  [PreventDefault;
   ConsoleLog "Attempting to register user with data:";
   Fetch (build_request env ls "/auth/register" (post (AuthModal.userData form)));
   ConsoleLog "API success:";
   ConsoleLog "Registration API response:";
   Toast "Account created!"
     (JStr "Please check your email and enter the verification code.") false].

Definition login_request env (ls : gmap string string) (email password : string)
  : Request.t :=
  build_request env ls "/auth/login"
    (post (JObj [("email", JStr email); ("password", JStr password)])).

(** The events of a login that resolved and was then reported as failed with
    the message [shown]: no [OnLoginSuccess], no [OnClose]. *)
Definition failed_login_events env ls email password (shown : string)
  : list Event :=
  [PreventDefault;
   Fetch (login_request env ls email password);
   ConsoleLog "API success:";
   ConsoleError "Login error:";
   Toast "Sign in failed" (JStr shown) true].

Definition not_loading (s : AuthModal.State) : AuthModal.State :=
  AuthModal.mk (AuthModal.activeTab s) (AuthModal.showPassword s) false
    (AuthModal.isOTPModalOpen s) (AuthModal.isForgotPasswordOpen s)
    (AuthModal.pendingVerificationEmail s).

Definition sample_form : AuthModal.RegisterForm :=
  AuthModal.mkForm "a@b.com" "secret" "Ada" "Bekele" "" "job_seeker".
Definition sample_registration : JSValue :=
  JObj [("needsVerification", JBool true); ("token", JStr "t0k3n")].
Definition at_rest : World AuthModal.State := mkWorld AuthModal.initial ∅ [].

(** *** Verification flow *)

Section VerificationVocabulary.
Import OTPModal.

Definition set_loading (b : bool) : Instance → Instance :=
  with_hooks (λ h, mkHooks (otp h) b (isResending h) (timeLeft h)).
Definition set_resending (b : bool) : Instance → Instance :=
  with_hooks (λ h, mkHooks (otp h) (isLoading h) b (timeLeft h)).
Definition set_otp (v : string) : Instance → Instance :=
  with_hooks (λ h, mkHooks v (isLoading h) (isResending h) (timeLeft h)).

(** One more, or one less, invocation suspended at its [await]. *)
Definition awaiting_verify (c : Instance) : Instance :=
  mk (hooks c) (countdownRef c) (inputRef c) (intervals c) (nextHandle c)
     (Datatypes.S (verifying c)) (resending c).
Definition awaiting_resend (c : Instance) : Instance :=
  mk (hooks c) (countdownRef c) (inputRef c) (intervals c) (nextHandle c)
     (verifying c) (Datatypes.S (resending c)).
Definition resumed_resend (c : Instance) : Instance :=
  mk (hooks c) (countdownRef c) (inputRef c) (intervals c) (nextHandle c)
     (verifying c) (Nat.pred (resending c)).

Definition verify_request env (ls : gmap string string) (email code : string)
  : Request.t :=
  build_request env ls "/auth/verify-email"
    (post (JObj [("email", JStr email); ("otp", JStr code)])).

Definition resend_request env (ls : gmap string string) (email : string)
  : Request.t :=
  build_request env ls "/auth/resend-otp" (post (JObj [("email", JStr email)])).

Definition invalid_otp_events : list Event :=
  [PreventDefault;
   Toast "Invalid OTP" (JStr "Please enter a valid 6-digit code.") true].

(** What the continuation of [handleVerify] reports for a settled request. *)
Definition verified_events (response : JSValue) : list Event :=
  [Toast "Email verified!"
     (or_else (get response "message")
        (JStr "Your account has been successfully verified. You can now sign in."))
     false;
   OnVerificationSuccess;
   OnClose].

Definition verify_failed_events (error : Thrown) (mounted : bool) : list Event :=
  [ConsoleError "Verification error:";
   Toast "Verification failed"
     (JStr (message_or "Invalid or expired OTP code. Please try again." error)) true]
  ++ (if mounted then [FocusInput] else []).

Definition verify_events (net : FetchOutcome) (mounted : bool) : list Event :=
  settle_events net ++
  match settle_completion net with
  | Normal response =>
      if acknowledged response then verified_events response
      else verify_failed_events (Error "Verification failed. Please try again.") mounted
  | Throw error => verify_failed_events error mounted
  end.

(** What the continuation of [handleResendOTP] reports. *)
Definition resent_events (response : JSValue) : list Event :=
  [Toast "OTP resent"
     (or_else (get response "message")
        (JStr "A new verification code has been sent to your email."))
     false].

Definition resend_failed_events (error : Thrown) : list Event :=
  [ConsoleError "Resend OTP error:";
   Toast "Error"
     (JStr (message_or "Failed to resend verification code. Please try again." error))
     true].

Definition resend_events (net : FetchOutcome) : list Event :=
  settle_events net ++
  match settle_completion net with
  | Normal response =>
      if acknowledged response then resent_events response
      else resend_failed_events (Error "Failed to resend OTP")
  | Throw error => resend_failed_events error
  end.

(** Whether a settled resend arms the cooldown. *)
Definition resend_acknowledged (net : FetchOutcome) : bool :=
  match settle_completion net with
  | Normal response => acknowledged response
  | Throw _ => false
  end.

(** The instance after a resend was acknowledged: the timer of the ref is
    cleared, the cooldown is 60, a new timer runs and the ref holds it. *)
Definition armed (c : Instance) : Instance :=
  let running :=
    if ref_truthy (countdownRef c)
    then intervals c ∖ {[default 0%nat (countdownRef c)]}
    else intervals c in
  mk (mkHooks (otp (hooks c)) (isLoading (hooks c)) false 60)
     (Some (nextHandle c)) (inputRef c)
     ({[nextHandle c]} ∪ running) (Datatypes.S (nextHandle c))
     (verifying c) (resending c).

(** The instance after the interval callback ran. *)
Definition ticked (c : Instance) : Instance :=
  if timeLeft (hooks c) <=? 1 then
    if ref_truthy (countdownRef c) then
      mk (mkHooks (otp (hooks c)) (isLoading (hooks c)) (isResending (hooks c)) 0)
         None (inputRef c)
         (intervals c ∖ {[default 0%nat (countdownRef c)]}) (nextHandle c)
         (verifying c) (resending c)
    else
      with_hooks (λ h, mkHooks (otp h) (isLoading h) (isResending h) 0) c
  else
    with_hooks (λ h, mkHooks (otp h) (isLoading h) (isResending h) (timeLeft h - 1)) c.

(** The part of an instance the resend cooldown lives in. *)
Definition cooldown_of (c : Instance)
  : bool * Z * option nat * gset nat * nat * nat :=
  (isResending (hooks c), timeLeft (hooks c), countdownRef c, intervals c,
   nextHandle c, resending c).

(** The cooldown is idle (no timer, nothing left to count) or counting (one
    timer, the one the ref holds, and between 1 and 60 seconds left); a
    resend is in flight exactly while [isResending], and only while idle. *)
Definition idle (c : Instance) : Prop :=
  countdownRef c = None ∧ intervals c = ∅ ∧ timeLeft (hooks c) = 0.
Definition counting (c : Instance) : Prop :=
  ∃ h : nat, (1 ≤ h < nextHandle c)%nat ∧ countdownRef c = Some h
             ∧ intervals c = {[h]} ∧ 1 ≤ timeLeft (hooks c) ≤ 60.
Definition cooldown_ok (c : Instance) : Prop :=
  (1 ≤ nextHandle c)%nat
  ∧ (idle c ∨ counting c)
  ∧ resending c = (if isResending (hooks c) then 1%nat else 0%nat)
  ∧ (isResending (hooks c) = true → timeLeft (hooks c) = 0).

(** The worlds a freshly mounted instance gets to, whatever arrives. *)
Definition reachable env email (w : World Instance) : Prop :=
  ∃ ls inputs, w = run env email (mkWorld initial ls []) inputs.

Definition is_timer_input (i : Input) : bool :=
  match i with
  | ClickResend | ResendSettles _ | Tick _ => true
  | _ => false
  end.

(** A mounted instance in which [code] has been typed. *)
Definition typing (code : string) : World Instance :=
  mkWorld (set_otp code initial) ∅ [].

(** One full cooldown, run: a click, an acknowledged reply, then seconds. *)
Definition acknowledged_reply : FetchOutcome :=
  json_response 200 (JObj [("success", JBool true)]).
Definition one_cooldown (seconds : nat) : World Instance :=
  run dev "a@b.com" (mkWorld initial ∅ [])
    ([ClickResend; ResendSettles acknowledged_reply] ++ replicate seconds (Tick 1%nat)).

End VerificationVocabulary.

(** *** Recovery flow *)


(** *** Further vocabulary: outcomes of requests *)

(** [fetch], or [response.text()] after [response.json()], rejected with [e]. *)
Definition rejected_with (net : FetchOutcome) (e : Thrown) : Prop :=
  net = Rejected e
  ∨ ∃ r e1, net = Responded r ∧ Response.json r = Throw e1
            ∧ Response.text r = Throw e.

(** The request resolved: a response in [200,299] whose body was read. *)
Definition resolved_with (net : FetchOutcome) (data : JSValue) : Prop :=
  ∃ r, net = Responded r ∧ Response.ok r = true ∧ body_of r = Some data.

(** What made [apiRequest] fail when it is not the status of the response:
    a rejection of the platform, or the [TypeError] thrown while the
    [APIError] of a response outside [200,299] was being built, on a body
    that is [null] or on an [error] field that has no string form. *)
Definition underlying_failure (net : FetchOutcome) (cause : Thrown) : Prop :=
  rejected_with net cause
  ∨ ∃ r data, net = Responded r ∧ Response.ok r = false ∧ body_of r = Some data
      ∧ ((nullish data = true ∧ cause = cannot_read data "details")
         ∨ (nullish data = false ∧ classified_message data = None
            ∧ cause = cannot_convert)).

(** The ways a request fails.  An underlying failure that is an [APIError]
    is passed on, any other becomes "Network error" with status 0 and the
    message of the failure as details; otherwise the response is outside
    [200,299] and gives its status, the message and the details read off
    its body. *)
Definition normalized_failure (net : FetchOutcome) (e : Thrown) : Prop :=
  (∃ cause, underlying_failure net cause
     ∧ e = if instanceof_APIError cause then cause
           else APIError "Network error" 0 (JStr (message cause)))
  ∨ (∃ r data m, net = Responded r ∧ Response.ok r = false
       ∧ body_of r = Some data ∧ nullish data = false
       ∧ classified_message data = Some m
       ∧ e = APIError m (Response.status r) (classified_details data)).

(** The request of a credential operation: no headers of its own. *)
Definition operation_request env (ls : gmap string string) (endpoint method : string)
    (body : option Body) : Request.t :=
  {| Request.url := API_BASE_URL env +:+ endpoint;
     Request.method := method;
     Request.headers :=
       (if token_truthy (ls !! "auth_token")
        then <["Authorization" := "Bearer " +:+ default "" (ls !! "auth_token")]>
               default_headers
        else default_headers);
     Request.mode := "cors";
     Request.credentials := "include";
     Request.body := body |}.

(** The props a component calls, among its events. *)
Definition is_callback (e : Event) : bool :=
  match e with
  | OnClose | OnLoginSuccess _ _ | OnVerificationSuccess => true
  | _ => false
  end.

(** *** Further vocabulary: login and registration *)

Definition welcomed_events env ls email password (body : JSValue) : list Event :=
  [PreventDefault;
   Fetch (login_request env ls email password);
   ConsoleLog "API success:";
   OnLoginSuccess (rest_without "token" body) (get body "token");
   Toast "Welcome back!" (JStr "You have successfully signed in.") false;
   OnClose].

(** [AuthModal] with the verification modal open for [email]. *)
Definition awaiting_code (email : string) (s : AuthModal.State) : AuthModal.State :=
  AuthModal.mk (AuthModal.activeTab s) (AuthModal.showPassword s) false true
    (AuthModal.isForgotPasswordOpen s) email.

Definition login_rejected_events env ls email password : list Event :=
  [PreventDefault;
   Fetch (login_request env ls email password);
   ConsoleError "API error:";
   ConsoleError "Login error:"].

Definition network_failure_events env ls email password : list Event :=
  [PreventDefault;
   Fetch (login_request env ls email password);
   ConsoleError "Network error:";
   ConsoleError "Login error:"].

Definition register_request env (ls : gmap string string)
    (form : AuthModal.RegisterForm) : Request.t :=
  build_request env ls "/auth/register" (post (AuthModal.userData form)).

(** The events of a registration that ends in the "Registration failed"
    toast, after the events [network] of the request itself. *)
Definition registration_failed_events env ls form (network : list Event)
    (shown : string) : list Event :=
  [PreventDefault;
   ConsoleLog "Attempting to register user with data:";
   Fetch (register_request env ls form)]
  ++ network
  ++ [ConsoleError "Registration error details:";
      Toast "Registration failed" (JStr shown) true].

Definition signed_up_events env ls form (body : JSValue) : list Event :=
  [PreventDefault;
   ConsoleLog "Attempting to register user with data:";
   Fetch (register_request env ls form);
   ConsoleLog "API success:";
   ConsoleLog "Registration API response:";
   OnLoginSuccess (get body "user") (get body "token");
   Toast "Welcome to CareerBridge!"
     (JStr "Your account has been created successfully.") false;
   OnClose].

Definition already_exists_text : string :=
  "An account with this email already exists. Please sign in or use a different email.".



(** *** Further vocabulary: verification and recovery *)

(** [AuthModal] after a verification succeeded. *)
Definition back_to_login (s : AuthModal.State) : AuthModal.State :=
  AuthModal.mk "login" (AuthModal.showPassword s) (AuthModal.isLoading s) false
    (AuthModal.isForgotPasswordOpen s) (AuthModal.pendingVerificationEmail s).

(** The request did not end in an acknowledged reply: it failed, or its
    body has neither a truthy [success] nor a truthy [message]. *)
Definition unacknowledged (net : FetchOutcome) : bool :=
  negb (resend_acknowledged net).

Definition forgot_request env (ls : gmap string string) (email : string)
  : Request.t :=
  build_request env ls "/auth/forgot-password" (post (JObj [("email", JStr email)])).

(** What a submission of the recovery form reports once it settled. *)
Definition forgot_events (net : FetchOutcome) : list Event :=
  settle_events net ++
  match settle_completion net with
  | Normal _ =>
      [Toast "Reset link sent"
         (JStr "Check your email for password reset instructions.") false]
  | Throw error =>
      [Toast "Failed to send reset link"
         (JStr (if String.eqb (message error) ""
                then "Please check your email address and try again."
                else message error))
         true]
  end.

Definition forgot_settled (net : FetchOutcome) (s : ForgotPasswordModal.State)
  : ForgotPasswordModal.State :=
  ForgotPasswordModal.mk (ForgotPasswordModal.email s) false
    (match settle_completion net with
     | Normal _ => true
     | Throw _ => ForgotPasswordModal.isSuccess s
     end).

(** Sample worlds for the closed examples. *)
Definition signed_in_page : World Index.State :=
  mkWorld (Index.mk false true (JObj [("first_name", JStr "Ada")]))
          (<["auth_token" := "abc"]> ∅) [].
Definition fresh_page : World Index.State := mkWorld Index.initial ∅ [].
Definition sample_login : JSValue :=
  JObj [("token", JStr "t0k3n"); ("id", JStr "u1"); ("first_name", JStr "Ada")].
Definition sample_signup : JSValue :=
  JObj [("token", JStr "t0k3n"); ("user", JObj [("id", JStr "u1")])].

(* ===================================================================== *)
(** ** Properties of the transport client *)
(* ===================================================================== *)

Ltac unfold_monad :=
  unfold exec, completion, bind, try_catch, finally, lift, emit, update, read,
    getItem, setItem, removeItem, toast, ret, throw in *.

Lemma log_log {S} (a b : list Event) (w : World S) :
  log b (log a w) = log (a ++ b) w.
Proof. unfold log. simpl. by rewrite app_assoc. Qed.

Lemma log_nil {S} (w : World S) : log [] w = w.
Proof. destruct w. unfold log. simpl. by rewrite app_nil_r. Qed.

Section Transport.
Context {S : Type}.
Variable env : ImportMetaEnv.

(** [settle], case by case. *)
Lemma read_body_received (r : Response.t) data (w : World S) :
  body_of r = Some data → read_body r w = (w, Normal data).
Proof.
  unfold body_of, read_body. unfold_monad.
  destruct (Response.json r); [ by intros [= ->] | ].
  destruct (Response.text r); [ by intros [= ->] | done ].
Qed.

Lemma ok_iff (r : Response.t) :
  Response.ok r = true ↔ 200 ≤ Response.status r ≤ 299.
Proof. unfold Response.ok. rewrite andb_true_iff, !Z.leb_le. done. Qed.

Lemma settle_success (r : Response.t) data (w : World S) :
  Response.ok r = true → body_of r = Some data →
  settle (Responded r) w = (log [ConsoleLog "API success:"] w, Normal data).
Proof.
  intros Hok Hb. unfold settle.
  unfold try_catch at 1. unfold bind at 1.
  rewrite (read_body_received _ _ _ Hb), Hok. reflexivity.
Qed.

Lemma settle_failure (r : Response.t) data m (w : World S) :
  Response.ok r = false → body_of r = Some data → nullish data = false →
  ToString (error_message_of data) = Some m →
  settle (Responded r) w
  = (log [ConsoleError "API error:"] w,
     Throw (APIError m (Response.status r) (or_else (get data "details") data))).
Proof.
  intros Hok Hb Hn Hm. unfold settle.
  unfold try_catch at 1. unfold bind at 1.
  rewrite (read_body_received _ _ _ Hb), Hok. simpl.
  unfold_monad. simpl. unfold get_prop, new_APIError. by rewrite Hn, Hm.
Qed.

(** The missed case: [data.details] on a [null] body throws inside the
    [try], and the outer [catch] reports a network error. *)
Lemma settle_null_body (r : Response.t) (w : World S) :
  Response.ok r = false → Response.json r = Normal JNull →
  settle (Responded r) w
  = (log [ConsoleError "API error:"; ConsoleError "Network error:"] w,
     Throw (APIError "Network error" 0
              (JStr "Cannot read properties of null (reading 'details')"))).
Proof.
  intros Hok Hj. unfold settle, read_body. unfold_monad.
  rewrite Hj, Hok. simpl. unfold log. simpl. by rewrite <- app_assoc.
Qed.

(** The message expression of [apiRequest] read as a case distinction. *)
Lemma error_message_classified data :
  nullish data = false →
  ToString (error_message_of data) = classified_message data.
Proof.
  unfold error_message_of, classified_message, or_else, text_or_generic.
  destruct data as [| |[]|n|s|items|fields]; simpl; try done.
  - intros _. destruct (Number.falsy n) eqn:E; simpl; by rewrite ?E.
  - intros _. destruct (String.eqb s "") eqn:E; simpl; by rewrite ?E.
  - by destruct (truthy (own "error" fields)).
Qed.

(** What a statement of [settle] does to any world is what it does
    [nowhere]: it logs, and its completion does not depend on the world. *)
Lemma settle_frame (net : FetchOutcome) (w : World S) :
  settle net w = (log (settle_events net) w, settle_completion net).
Proof.
  destruct w as [c ls tr].
  unfold settle_events, settle_completion, settle, read_body, log, nowhere.
  unfold_monad.
  destruct net as [[m s d | n m] | r]; simpl; rewrite ?app_nil_r; try reflexivity.
  destruct (Response.json r) as [v|e1]; [| destruct (Response.text r) as [t|[]]];
    destruct (Response.ok r); simpl; rewrite ?app_nil_r; try reflexivity.
  all: unfold get_prop, new_APIError.
  all: repeat match goal with |- context [nullish ?v] => destruct (nullish v) end; simpl.
  all: repeat match goal with |- context [ToString ?v] => destruct (ToString v) end; simpl.
  all: rewrite <- ?app_assoc; reflexivity.
Qed.

Lemma settle_no_fetch (net : FetchOutcome) :
  forallb (λ e, negb (is_fetch e)) (settle_events net) = true.
Proof.
  unfold settle_events, settle, read_body, nowhere.
  unfold_monad.
  destruct net as [[m s d | n m] | r]; simpl; try reflexivity.
  destruct (Response.json r) as [v|e1]; [| destruct (Response.text r) as [t|[]]];
    destruct (Response.ok r); simpl; try reflexivity.
  all: unfold get_prop, new_APIError.
  all: repeat match goal with |- context [nullish ?v] => destruct (nullish v) end; simpl.
  all: repeat match goal with |- context [ToString ?v] => destruct (ToString v) end; simpl.
  all: reflexivity.
Qed.

(** [apiRequest] as a whole: one request leaves, then [settle]. *)
Lemma apiRequest_call_spec endpoint options (w : World S) :
  apiRequest_call env endpoint options w
  = (log [Fetch (build_request env (localStorage w) endpoint options)] w, Normal tt).
Proof. reflexivity. Qed.

Lemma apiRequest_spec endpoint options net (w : World S) :
  apiRequest env endpoint options net w
  = (log (Fetch (build_request env (localStorage w) endpoint options)
            :: settle_events net) w,
     settle_completion net).
Proof.
  unfold apiRequest. unfold bind at 1. rewrite apiRequest_call_spec.
  rewrite settle_frame, log_log. reflexivity.
Qed.

Lemma apiRequest_completion endpoint options net (w : World S) :
  completion (apiRequest env endpoint options net) w = completion (settle net) w.
Proof. unfold completion. by rewrite apiRequest_spec, settle_frame. Qed.
End Transport.

(** *** The outcome of a request *)

(** C1, as amended.  Once the body of a response has been obtained (parsed
    JSON, or the text after the parse failed): a status in [200,299] resolves
    with that body; any other status, on a body that is not [null] and whose
    [error] field, if truthy, has a string form, fails with an [APIError]
    whose status is the HTTP status, whose message is that string form of
    the body's [error] field when the field is truthy, else the text when
    the body is text, else "Request failed", and whose details are the
    body's [details] field when truthy, else the whole body. *)
Theorem send_classifies_response {S} env endpoint options (r : Response.t)
    (data : JSValue) (w : World S) :
  body_of r = Some data →
  (200 ≤ Response.status r ≤ 299 →
   completion (apiRequest env endpoint options (Responded r)) w = Normal data)
  ∧ (¬ (200 ≤ Response.status r ≤ 299) →
     nullish data = false →
     ∀ m, classified_message data = Some m →
          completion (apiRequest env endpoint options (Responded r)) w
          = Throw (APIError m (Response.status r) (classified_details data))).
Proof.
  intros Hb. rewrite apiRequest_completion. unfold completion. split.
  - intros Hok%ok_iff. by rewrite (settle_success r data _ Hok Hb).
  - intros Hok Hn m Hm.
    assert (Response.ok r = false) as Hko.
    { destruct (Response.ok r) eqn:E; [ by apply ok_iff in E | done ]. }
    rewrite <- error_message_classified in Hm by done.
    unfold classified_details.
    by rewrite (settle_failure r data m _ Hko Hb Hn Hm).
Qed.

Lemma send_classifies_response_witness :
  completion
    (apiRequest dev "/auth/login" Options.empty
       (json_response 401 (JObj [("error", JStr "Invalid credentials")])))
    nowhere
  = Throw (APIError "Invalid credentials" 401
             (JObj [("error", JStr "Invalid credentials")])).
Proof.
  apply (send_classifies_response dev "/auth/login" Options.empty
           (Response.mk 401 (Normal (JObj [("error", JStr "Invalid credentials")]))
              (Throw body_already_read))
           (JObj [("error", JStr "Invalid credentials")]) nowhere);
    [ reflexivity | simpl; lia | reflexivity | reflexivity ].
Defined.

(** C1 as stated fails on a body whose [error] and [details] fields are
    present and falsy: the status is 422 and both fields are there, yet the
    message is the generic one, not the field, and the details are the whole
    body, not the field. *)
Lemma send_error_field_present_but_empty :
  let body := JObj [("error", JStr ""); ("details", JNum Number.zero)] in
  (present "error" body = true ∧ stated_message body = Some "")
  ∧ (present "details" body = true ∧ stated_details body = JNum Number.zero)
  ∧ completion (apiRequest dev "/auth/register" Options.empty (json_response 422 body))
      nowhere
    = Throw (APIError "Request failed" 422 body).
Proof. repeat split. Qed.

(** The [null] body of a rejected request: the status is lost. *)
Lemma send_null_body_reports_network_error {S} env endpoint options
    (r : Response.t) (w : World S) :
  Response.ok r = false → Response.json r = Normal JNull →
  completion (apiRequest env endpoint options (Responded r)) w
  = Throw (APIError "Network error" 0
             (JStr "Cannot read properties of null (reading 'details')")).
Proof.
  intros Hok Hj. rewrite apiRequest_completion. unfold completion.
  by rewrite (settle_null_body r _ Hok Hj).
Qed.

Lemma send_null_body_reports_network_error_witness :
  completion (apiRequest dev "/auth/login" Options.empty (json_response 500 JNull))
    nowhere
  = Throw (APIError "Network error" 0
             (JStr "Cannot read properties of null (reading 'details')")).
Proof.
  apply (send_null_body_reports_network_error dev "/auth/login" Options.empty
           (Response.mk 500 (Normal JNull) (Throw body_already_read)) nowhere);
    reflexivity.
Defined.

(** No response at all: whatever [fetch] rejects with is reported as a
    network error with status 0 and the failure's message as details. *)
Lemma network_failure_is_normalized {S} env endpoint options
    (name message : string) (w : World S) :
  completion (apiRequest env endpoint options (Rejected (NativeError name message))) w
  = Throw (APIError "Network error" 0 (JStr message)).
Proof. rewrite apiRequest_completion. reflexivity. Qed.

(** A body that can be read neither as JSON nor as text is reported the
    same way, whatever the status. *)
Lemma unreadable_body_reports_network_error {S} env endpoint options
    (r : Response.t) (e1 : Thrown) (name message : string) (w : World S) :
  Response.json r = Throw e1 →
  Response.text r = Throw (NativeError name message) →
  completion (apiRequest env endpoint options (Responded r)) w
  = Throw (APIError "Network error" 0 (JStr message)).
Proof.
  intros Hj Ht. rewrite apiRequest_completion.
  unfold completion, settle, read_body. unfold_monad. by rewrite Hj, Ht.
Qed.

Lemma unreadable_body_reports_network_error_witness :
  completion
    (apiRequest dev "/auth/login" Options.empty
       (Responded (Response.mk 502 (Throw (NativeError "SyntaxError" "Unexpected token <"))
                                   (Throw body_already_read))))
    nowhere
  = Throw (APIError "Network error" 0 (JStr "body stream already read")).
Proof.
  apply (unreadable_body_reports_network_error dev "/auth/login" Options.empty
           (Response.mk 502 (Throw (NativeError "SyntaxError" "Unexpected token <"))
                            (Throw body_already_read))
           (NativeError "SyntaxError" "Unexpected token <")
           "TypeError" "body stream already read" nowhere);
    reflexivity.
Defined.

(** *** The request that leaves *)

Lemma lookup_add_auth (token : option string) (c : Request.t) (k : string) :
  Request.headers (add_auth token c) !! k
  = if token_truthy token && bool_decide (k = "Authorization")
    then Some ("Bearer " +:+ default "" token)
    else Request.headers c !! k.
Proof.
  unfold add_auth. destruct (token_truthy token); simpl; [| done].
  case_bool_decide as Hk.
  - subst k. by rewrite lookup_insert_eq.
  - by rewrite lookup_insert_ne.
Qed.

(** Without caller-supplied headers the two defaults are sent, and the
    bearer header exactly when the store holds a (non-empty) token. *)
Lemma default_headers_sent env ls endpoint options :
  Options.headers options = None →
  let sent := Request.headers (build_request env ls endpoint options) in
  sent !! "Content-Type" = Some "application/json"
  ∧ sent !! "Accept" = Some "application/json"
  ∧ sent !! "Authorization"
    = (if token_truthy (ls !! "auth_token")
       then Some ("Bearer " +:+ default "" (ls !! "auth_token")) else None).
Proof.
  intros Hh sent. subst sent. unfold build_request.
  rewrite !lookup_add_auth.
  unfold config_literal, spread_headers. rewrite Hh. simpl.
  rewrite (left_id_L ∅ (∪)). unfold default_headers.
  repeat split.
  - by rewrite andb_false_r.
  - by rewrite andb_false_r.
  - destruct (token_truthy _); by simpl.
Qed.

Lemma default_headers_sent_witness :
  let sent :=
    Request.headers
      (build_request dev (<["auth_token" := "abc"]> ∅) "/users/me" Options.empty) in
  sent !! "Content-Type" = Some "application/json"
  ∧ sent !! "Accept" = Some "application/json"
  ∧ sent !! "Authorization" = Some "Bearer abc".
Proof.
  pose proof (default_headers_sent dev (<["auth_token" := "abc"]> ∅) "/users/me"
                Options.empty eq_refl) as H.
  vm_compute in H. vm_compute. exact H.
Defined.

(** Out of the program's reach, since no call of [apiRequest] passes
    [headers]: if one did, the [...options] spread would bind
    [config.headers] to the caller's object and drop the merged literal, so
    the request of a caller who does not repeat [Content-Type] and [Accept]
    would have neither. *)
Theorem caller_headers_replace_defaults {S} env endpoint options net
    (h : gmap string string) (w : World S) :
  Options.headers options = Some h →
  h !! "Content-Type" = None → h !! "Accept" = None →
  let req := build_request env (localStorage w) endpoint options in
  exec (apiRequest env endpoint options net) w
  = log (Fetch req :: settle_events net) w
  ∧ Request.headers req !! "Content-Type" = None
  ∧ Request.headers req !! "Accept" = None.
Proof.
  intros Hh Hc Ha req. subst req. unfold exec. rewrite apiRequest_spec.
  split; [done |]. unfold build_request.
  rewrite !lookup_add_auth.
  unfold config_literal. rewrite Hh. simpl.
  by rewrite !andb_false_r.
Qed.

Lemma caller_headers_replace_defaults_witness :
  let options := Options.mk None (Some (<["X-Trace" := "1"]> ∅)) None None None in
  let w : World unit := mkWorld tt (<["auth_token" := "abc"]> ∅) [] in
  let req := build_request dev (localStorage w) "/users/me" options in
  exec (apiRequest dev "/users/me" options (json_response 200 (JObj []))) w
  = log (Fetch req :: settle_events (json_response 200 (JObj []))) w
  ∧ Request.headers req !! "Content-Type" = None
  ∧ Request.headers req !! "Accept" = None.
Proof.
  apply (caller_headers_replace_defaults dev "/users/me"
           (Options.mk None (Some (<["X-Trace" := "1"]> ∅)) None None None)
           (json_response 200 (JObj []))
           (<["X-Trace" := "1"]> ∅)
           (mkWorld tt (<["auth_token" := "abc"]> ∅) []));
    reflexivity.
Defined.

(** What that request does carry: the caller's header and the bearer. *)
Example caller_headers_sent :
  map_to_list
    (Request.headers
       (build_request dev (<["auth_token" := "abc"]> ∅) "/users/me"
          (Options.mk None (Some (<["X-Trace" := "1"]> ∅)) None None None)))
  = [("Authorization", "Bearer abc"); ("X-Trace", "1")].
Proof. vm_compute. reflexivity. Qed.

(** C9 on the code.  [getProfile] passes no options, so its request to
    [/users/me] goes out with [apiRequest]'s default method, POST;
    [updateProfile] names its method, PUT. *)
Theorem getProfile_request_method {S} env net profileData (w : World S) :
  let get_req := build_request env (localStorage w) "/users/me" Options.empty in
  let put_req :=
    build_request env (localStorage w) "/users/me"
      (Options.mk (Some "PUT") None (Some (JSON_stringify profileData)) None None) in
  exec (getProfile env net) w = log (Fetch get_req :: settle_events net) w
  ∧ Request.url get_req = API_BASE_URL env +:+ "/users/me"
  ∧ Request.method get_req = "POST"
  ∧ exec (updateProfile env profileData net) w
    = log (Fetch put_req :: settle_events net) w
  ∧ Request.url put_req = API_BASE_URL env +:+ "/users/me"
  ∧ Request.method put_req = "PUT".
Proof.
  unfold exec, getProfile, updateProfile. rewrite !apiRequest_spec. simpl.
  unfold build_request, add_auth.
  repeat split; by destruct (token_truthy _).
Qed.

(* ===================================================================== *)
(** ** Properties of the login and register orchestration *)
(* ===================================================================== *)

(** What [settle] logs and returns for a response that resolves. *)
Lemma settle_resolved (r : Response.t) data :
  200 ≤ Response.status r ≤ 299 → body_of r = Some data →
  settle_events (Responded r) = [ConsoleLog "API success:"]
  ∧ settle_completion (Responded r) = Normal data.
Proof.
  intros Hok%ok_iff Hb. unfold settle_events, settle_completion, exec, completion.
  by rewrite (settle_success r data nowhere Hok Hb).
Qed.

(** Run a handler up to and through its request. *)
Ltac step_request :=
  unfold_monad;
  repeat match goal with
    | |- context [apiRequest ?env ?e ?o ?net ?w] =>
        rewrite (apiRequest_spec env e o net w)
    | |- context [apiRequest_call ?env ?e ?o ?w] =>
        rewrite (apiRequest_call_spec env e o w)
    | |- context [settle ?net ?w] => rewrite (settle_frame net w)
    end.

(** C5.  A registration that resolves with [needsVerification: true] leaves
    [localStorage] as it was, whatever else the body holds, and hands over to
    the verification flow with the email of the form; neither
    [onLoginSuccess] nor [onClose] is called. *)
Theorem register_needing_verification env form (r : Response.t) body
    (w : World AuthModal.State) :
  200 ≤ Response.status r ≤ 299 →
  body_of r = Some body →
  get body "needsVerification" = JBool true →
  let w' := exec (AuthModal.handleRegister env form (Responded r)) w in
  localStorage w' = localStorage w
  ∧ AuthModal.pendingVerificationEmail (component w') = AuthModal.email form
  ∧ AuthModal.isOTPModalOpen (component w') = true
  ∧ trace w' = (trace w ++ registered_events env form (localStorage w))%list.
Proof.
  intros Hok Hb Hv. destruct (settle_resolved r body Hok Hb) as [Hev Hc].
  assert (get_opt body "needsVerification" = JBool true) as Hv'.
  { destruct body; try discriminate. exact Hv. }
  unfold AuthModal.handleRegister, register, AuthModal.setIsLoading,
    AuthModal.setPendingVerificationEmail, AuthModal.setIsOTPModalOpen.
  step_request. simpl. step_request. rewrite Hev, Hc. simpl. rewrite Hv'. simpl.
  repeat split. unfold registered_events. rewrite <- !app_assoc. reflexivity.
Qed.


Lemma register_needing_verification_witness :
  let w' :=
    exec (AuthModal.handleRegister dev sample_form
            (json_response 201 sample_registration)) at_rest in
  localStorage w' = ∅
  ∧ AuthModal.pendingVerificationEmail (component w') = "a@b.com"
  ∧ AuthModal.isOTPModalOpen (component w') = true
  ∧ trace w' = registered_events dev sample_form ∅.
Proof.
  apply (register_needing_verification dev sample_form
           (Response.mk 201 (Normal sample_registration) (Throw body_already_read))
           sample_registration at_rest);
    [ simpl; lia | reflexivity | reflexivity ].
Defined.

(** A login that resolves with a body other than [null] in which [token] is
    missing or falsy is reported as failed with the message of the handler:
    nothing is stored, [onLoginSuccess] and [onClose] are not called. *)
Lemma login_without_token env email password (r : Response.t) body
    (w : World AuthModal.State) :
  200 ≤ Response.status r ≤ 299 →
  body_of r = Some body →
  nullish body = false →
  truthy (get body "token") = false →
  AuthModal.handleLogin env email password (Responded r) w
  = (mkWorld (not_loading (component w)) (localStorage w)
       (trace w ++ failed_login_events env (localStorage w) email password
                     "No authentication token received"),
     Normal tt).
Proof.
  intros Hok Hb Hn Ht. destruct (settle_resolved r body Hok Hb) as [Hev Hc].
  unfold AuthModal.handleLogin, login, AuthModal.setIsLoading, destructure_token.
  step_request. simpl. step_request. rewrite Hev, Hc. simpl. rewrite Hn. simpl.
  rewrite Ht. simpl. unfold failed_login_events, login_request, not_loading.
  rewrite <- !app_assoc. reflexivity.
Qed.

(** C6 on the code.  A login that resolves with the body [null] has no token
    field either, but the destructuring of [response] throws before the
    token is looked at: the failure that is shown carries the engine's
    [TypeError] message, not "No authentication token received".  Nothing is
    stored and neither callback runs. *)
Theorem login_null_body env email password (r : Response.t)
    (w : World AuthModal.State) :
  200 ≤ Response.status r ≤ 299 →
  Response.json r = Normal JNull →
  AuthModal.handleLogin env email password (Responded r) w
  = (mkWorld (not_loading (component w)) (localStorage w)
       (trace w ++ failed_login_events env (localStorage w) email password
                     "Cannot destructure property 'token' of 'response' as it is null."),
     Normal tt).
Proof.
  intros Hok Hj.
  assert (body_of r = Some JNull) as Hb by (unfold body_of; by rewrite Hj).
  destruct (settle_resolved r JNull Hok Hb) as [Hev Hc].
  unfold AuthModal.handleLogin, login, AuthModal.setIsLoading, destructure_token.
  step_request. simpl. step_request. rewrite Hev, Hc. simpl.
  unfold failed_login_events, login_request, not_loading.
  rewrite <- !app_assoc. reflexivity.
Qed.

Lemma login_null_body_witness :
  AuthModal.handleLogin dev "a@b.com" "secret" (json_response 200 JNull) at_rest
  = (mkWorld AuthModal.initial ∅
       (failed_login_events dev ∅ "a@b.com" "secret"
          "Cannot destructure property 'token' of 'response' as it is null."),
     Normal tt).
Proof.
  apply (login_null_body dev "a@b.com" "secret"
           (Response.mk 200 (Normal JNull) (Throw body_already_read)) at_rest);
    [ simpl; lia | reflexivity ].
Defined.

Lemma login_without_token_witness :
  AuthModal.handleLogin dev "a@b.com" "secret"
    (json_response 200 (JObj [("id", JStr "u1"); ("email", JStr "a@b.com")])) at_rest
  = (mkWorld AuthModal.initial ∅
       (failed_login_events dev ∅ "a@b.com" "secret"
          "No authentication token received"),
     Normal tt).
Proof.
  apply (login_without_token dev "a@b.com" "secret"
           (Response.mk 200
              (Normal (JObj [("id", JStr "u1"); ("email", JStr "a@b.com")]))
              (Throw body_already_read))
           (JObj [("id", JStr "u1"); ("email", JStr "a@b.com")]) at_rest);
    [ simpl; lia | reflexivity .. ].
Defined.

(** What [settle] logs and throws for a response that is rejected. *)
Lemma settle_rejected (r : Response.t) data m :
  ¬ (200 ≤ Response.status r ≤ 299) → body_of r = Some data →
  nullish data = false → classified_message data = Some m →
  settle_events (Responded r) = [ConsoleError "API error:"]
  ∧ settle_completion (Responded r)
    = Throw (APIError m (Response.status r) (classified_details data)).
Proof.
  intros Hok Hb Hn Hm.
  assert (Response.ok r = false) as Hko.
  { destruct (Response.ok r) eqn:E; [ by apply ok_iff in E | done ]. }
  rewrite <- error_message_classified in Hm by done.
  unfold settle_events, settle_completion, exec, completion.
  by rewrite (settle_failure r data m nowhere Hko Hb Hn Hm).
Qed.



(** The unverified login of its second scenario: the verification flow opens
    for the email that was submitted, and no failure toast is shown. *)
Example email_not_verified :
  AuthModal.handleLogin dev "a@b.com" "secret"
    (json_response 403 (JObj [("error", JStr "Email not verified")])) at_rest
  = (mkWorld (AuthModal.mk "login" false false true false "a@b.com") ∅
       [PreventDefault;
        Fetch (login_request dev ∅ "a@b.com" "secret");
        ConsoleError "API error:";
        ConsoleError "Login error:"],
     Normal tt).
Proof. vm_compute. reflexivity. Qed.

(* ===================================================================== *)
(** ** Properties of the verification flow controller *)
(* ===================================================================== *)

Section VerificationFlow.
Import OTPModal.

(** The continuation of [handleVerify] in one equation: it lowers
    [isLoading] and reports; nothing else in the instance moves. *)
Lemma handleVerify_resume_spec (net : FetchOutcome) (w : World Instance) :
  handleVerify_resume net w
  = (mkWorld (set_loading false (component w)) (localStorage w)
       (trace w ++ verify_events net (inputRef (component w))),
     Normal tt).
Proof.
  unfold handleVerify_resume, setIsLoading, verify_events.
  unfold_monad. rewrite settle_frame.
  destruct (settle_completion net) as [response | error]; simpl.
  - destruct (acknowledged response); simpl.
    + unfold verified_events. rewrite <- !app_assoc. reflexivity.
    + unfold verify_failed_events.
      destruct (inputRef (component w)); simpl; rewrite <- !app_assoc; reflexivity.
  - unfold verify_failed_events.
    destruct (inputRef (component w)); simpl; rewrite <- !app_assoc; reflexivity.
Qed.

(** The continuation of [handleResendOTP] in one equation: the cooldown is
    armed when the reply is acknowledged, and only then. *)
Lemma handleResendOTP_resume_spec (net : FetchOutcome) (w : World Instance) :
  handleResendOTP_resume net w
  = (mkWorld (if resend_acknowledged net then armed (component w)
              else set_resending false (component w))
       (localStorage w) (trace w ++ resend_events net),
     Normal tt).
Proof.
  unfold handleResendOTP_resume, resend_acknowledged, resend_events, clear_countdown,
    setIsResending, setTimeLeft, setCountdownRef, setInterval, clearInterval.
  unfold_monad. rewrite settle_frame.
  destruct (settle_completion net) as [response | error]; simpl.
  - destruct (acknowledged response); simpl.
    + unfold armed, resent_events.
      destruct (ref_truthy (countdownRef (component w))); simpl;
        rewrite <- !app_assoc; reflexivity.
    + unfold resend_failed_events. rewrite <- !app_assoc. reflexivity.
  - unfold resend_failed_events. rewrite <- !app_assoc. reflexivity.
Qed.

(** [handleVerify] up to its [await]: a request for the code of the render,
    or the "Invalid OTP" toast. *)
Lemma handleVerify_begin_spec env email (snap : Hooks) (w : World Instance) :
  handleVerify_begin env email snap w
  = if six_digits (otp snap)
    then (mkWorld (set_loading true (component w)) (localStorage w)
            (trace w ++ [PreventDefault;
                         Fetch (verify_request env (localStorage w) email (otp snap))]),
          Normal true)
    else (log invalid_otp_events w, Normal false).
Proof.
  unfold handleVerify_begin, verifyEmail_call, setIsLoading, six_digits.
  step_request. 
  destruct (String.length (otp snap) =? 6)%nat; simpl;
    [ destruct (all_digits (otp snap)); simpl | ];
    unfold log, invalid_otp_events; simpl; rewrite <- ?app_assoc; reflexivity.
Qed.

(** C3 on the code.  The change that completes the code calls
    [handleVerify], which validates the code of the render it was created
    in; that code is not six digits yet, so the user is told the code is
    invalid and no verification request is made. *)
Theorem completing_the_code_sends_nothing env email (w : World Instance)
    (input : string) :
  String.length (accumulate input) = 6%nat →
  six_digits (otp (render w)) = false →
  step env email w (Change input)
  = mkWorld (set_otp (accumulate input) (component w)) (localStorage w)
      (trace w ++ invalid_otp_events).
Proof.
  intros Hlen Hsnap. unfold step, react, handleOtpChange_begin, setOtp, exec.
  unfold bind at 1. unfold bind at 1. unfold update at 1.
  rewrite Hlen. simpl. rewrite handleVerify_begin_spec, Hsnap. reflexivity.
Qed.

(** The other face of the same closure: a change made while the code already
    holds six digits, and that again leaves six digits, does send a
    verification request, for the code of the previous render. *)
Lemma editing_a_full_code_sends_the_previous_one env email (w : World Instance)
    (input : string) :
  String.length (accumulate input) = 6%nat →
  six_digits (otp (render w)) = true →
  step env email w (Change input)
  = mkWorld
      (awaiting_verify (set_loading true (set_otp (accumulate input) (component w))))
      (localStorage w)
      (trace w ++ [PreventDefault;
                   Fetch (verify_request env (localStorage w) email (otp (render w)))]).
Proof.
  intros Hlen Hsnap. unfold step, react, handleOtpChange_begin, setOtp, exec.
  unfold bind at 1. unfold bind at 1. unfold update at 1.
  rewrite Hlen. simpl. rewrite handleVerify_begin_spec, Hsnap. reflexivity.
Qed.

Lemma completing_the_code_sends_nothing_witness :
  step dev "a@b.com" (typing "12345") (Change "123456")
  = mkWorld (set_otp "123456" initial) ∅ invalid_otp_events.
Proof.
  apply (completing_the_code_sends_nothing dev "a@b.com" (typing "12345") "123456");
    reflexivity.
Defined.

Lemma editing_a_full_code_sends_the_previous_one_witness :
  step dev "a@b.com" (typing "123456") (Change "123457")
  = mkWorld
      (awaiting_verify (set_loading true (set_otp "123457" initial))) ∅
      [PreventDefault; Fetch (verify_request dev ∅ "a@b.com" "123456")].
Proof.
  apply (editing_a_full_code_sends_the_previous_one dev "a@b.com"
           (typing "123456") "123457"); reflexivity.
Defined.

(** A paste goes the same way: six digits pasted into an empty field are
    stored, and rejected as invalid without a request. *)
Example pasting_the_code_sends_nothing :
  step dev "a@b.com" (typing "") (Paste "123 456")
  = mkWorld (set_otp "123456" initial) ∅ (PreventDefault :: invalid_otp_events).
Proof. reflexivity. Qed.

(** [accumulate] on the characters of the input. *)
Lemma chars_strip_non_digits (s : string) :
  list_ascii_of_string (strip_non_digits s)
  = List.filter is_digit (list_ascii_of_string s).
Proof.
  induction s as [| c s IH]; simpl; [done |].
  destruct (is_digit c); simpl; by rewrite IH.
Qed.

Lemma chars_slice0 (n : nat) (s : string) :
  list_ascii_of_string (slice0 n s) = take n (list_ascii_of_string s).
Proof.
  revert s. induction n as [| n IH]; intros [| c s]; simpl; try done.
  by rewrite IH.
Qed.

Lemma accumulate_chars (input : string) :
  list_ascii_of_string (accumulate input)
  = take 6 (List.filter is_digit (list_ascii_of_string input)).
Proof. unfold accumulate. by rewrite chars_slice0, chars_strip_non_digits. Qed.

(** A change event and a paste, as far as the code is concerned. *)
Lemma react_change env email (w : World Instance) (input : string) :
  ∃ c evs,
    react env email (Change input) w
    = (mkWorld c (localStorage w) (trace w ++ evs), Normal tt)
    ∧ otp (hooks c) = accumulate input.
Proof.
  unfold react, handleOtpChange_begin, setOtp, suspend_if, suspend_verify.
  unfold bind at 1. unfold bind at 1. unfold update at 1. simpl.
  destruct (String.length (accumulate input) =? 6)%nat.
  - rewrite handleVerify_begin_spec.
    destruct (six_digits (otp (render w))); simpl; eexists _, _; split; done.
  - simpl. eexists _, []. rewrite app_nil_r. split; done.
Qed.

Lemma react_paste env email (w : World Instance) (clipboard : string) :
  ∃ c evs,
    react env email (Paste clipboard) w
    = (mkWorld c (localStorage w) (trace w ++ evs), Normal tt)
    ∧ otp (hooks c)
      = if String.eqb (accumulate clipboard) "" then otp (render w)
        else accumulate clipboard.
Proof.
  unfold react, handlePaste_begin, setOtp, suspend_if, suspend_verify.
  unfold bind at 1. unfold bind at 1. unfold emit at 1. simpl.
  destruct (String.eqb (accumulate clipboard) ""); simpl.
  - eexists _, _. split; done.
  - unfold bind at 1. unfold update at 1. simpl.
    destruct (String.length (accumulate clipboard) =? 6)%nat.
    + rewrite handleVerify_begin_spec.
      destruct (six_digits (otp (render w))); simpl; unfold log; simpl;
        rewrite <- ?app_assoc; eexists _, _; split; done.
    + simpl. eexists _, _. split; done.
Qed.

(** C4, as amended.  The accumulated code is the digits of the input, in
    order, cut to six.  A change event stores it; a paste stores it unless it
    is empty, in which case the code stays as it was.  Neither event throws,
    and the input "12a3bc45" accumulates to "12345". *)
Theorem otp_code_accumulation env email (w : World Instance) (input : string) :
  list_ascii_of_string (accumulate input)
  = take 6 (List.filter is_digit (list_ascii_of_string input))
  ∧ otp (render (step env email w (Change input))) = accumulate input
  ∧ otp (render (step env email w (Paste input)))
    = (if String.eqb (accumulate input) "" then otp (render w)
       else accumulate input)
  ∧ completion (react env email (Change input)) w = Normal tt
  ∧ completion (react env email (Paste input)) w = Normal tt
  ∧ accumulate "12a3bc45" = "12345".
Proof.
  destruct (react_change env email w input) as (c1 & evs1 & H1 & Ho1).
  destruct (react_paste env email w input) as (c2 & evs2 & H2 & Ho2).
  unfold step, exec, completion, render. rewrite H1, H2. simpl.
  repeat split; try done. apply accumulate_chars.
Qed.

(** C4 as stated fails for a paste without digits: the digits of the input
    are none, yet the code is still "12". *)
Lemma paste_without_digits_keeps_the_code :
  accumulate "abc" = ""
  ∧ otp (render (step dev "a@b.com" (typing "12") (Paste "abc"))) = "12".
Proof. split; reflexivity. Qed.

(** C10.  A verify-email or resend-otp request that resolves with a body in
    which neither [success] nor [message] is truthy is handled as a failure.
    Verification: an error toast, no [onVerificationSuccess], no [onClose].
    Resend: an error toast, and the cooldown, its timer and its ref are left
    as they were. *)
Theorem unacknowledged_reply_is_a_failure (r : Response.t) (body : JSValue)
    (w : World Instance) :
  200 ≤ Response.status r ≤ 299 →
  body_of r = Some body →
  truthy (get_opt body "success") = false →
  truthy (get_opt body "message") = false →
  handleVerify_resume (Responded r) w
  = (mkWorld (set_loading false (component w)) (localStorage w)
       (trace w ++
        [ConsoleLog "API success:";
         ConsoleError "Verification error:";
         Toast "Verification failed"
           (JStr "Verification failed. Please try again.") true]
        ++ (if inputRef (component w) then [FocusInput] else [])),
     Normal tt)
  ∧ handleResendOTP_resume (Responded r) w
    = (mkWorld (set_resending false (component w)) (localStorage w)
         (trace w ++
          [ConsoleLog "API success:";
           ConsoleError "Resend OTP error:";
           Toast "Error" (JStr "Failed to resend OTP") true]),
       Normal tt).
Proof.
  intros Hok Hb Hs Hm. destruct (settle_resolved r body Hok Hb) as [Hev Hc].
  assert (acknowledged body = false) as Hack.
  { unfold acknowledged, or_else. by rewrite Hs, Hm. }
  rewrite handleVerify_resume_spec, handleResendOTP_resume_spec.
  unfold verify_events, resend_events, resend_acknowledged.
  rewrite Hev, Hc, Hack. done.
Qed.

Lemma unacknowledged_reply_is_a_failure_witness :
  let w := typing "123456" in
  let reply := JObj [("status", JStr "ok")] in
  handleVerify_resume (json_response 200 reply) w
  = (mkWorld (set_loading false (component w)) ∅
       [ConsoleLog "API success:";
        ConsoleError "Verification error:";
        Toast "Verification failed"
          (JStr "Verification failed. Please try again.") true;
        FocusInput],
     Normal tt)
  ∧ handleResendOTP_resume (json_response 200 reply) w
    = (mkWorld (set_resending false (component w)) ∅
         [ConsoleLog "API success:";
          ConsoleError "Resend OTP error:";
          Toast "Error" (JStr "Failed to resend OTP") true],
       Normal tt).
Proof.
  apply (unacknowledged_reply_is_a_failure
           (Response.mk 200 (Normal (JObj [("status", JStr "ok")]))
              (Throw body_already_read))
           (JObj [("status", JStr "ok")]) (typing "123456"));
    [ simpl; lia | reflexivity | reflexivity | reflexivity ].
Defined.

(** *** The resend cooldown *)

Lemma cooldown_ok_ext (c c' : Instance) :
  cooldown_of c' = cooldown_of c → cooldown_ok c → cooldown_ok c'.
Proof.
  unfold cooldown_of, cooldown_ok, idle, counting.
  intros [= -> -> -> -> -> ->]. done.
Qed.

(** The three inputs that touch the cooldown, each in one equation. *)
Lemma click_resend_spec env email (w : World Instance) :
  step env email w ClickResend
  = if isResending (render w) || (0 <? timeLeft (render w)) then w
    else mkWorld (awaiting_resend (set_resending true (component w)))
           (localStorage w)
           (trace w ++ [Fetch (resend_request env (localStorage w) email)]).
Proof.
  unfold step, react, handleResendOTP_begin, resendOtp_call, setIsResending,
    suspend_if, suspend_resend, exec.
  destruct (isResending (render w) || (0 <? timeLeft (render w))).
  - by destruct w.
  - step_request. reflexivity.
Qed.

Lemma resend_settles_spec env email net (w : World Instance) :
  step env email w (ResendSettles net)
  = if (0 <? resending (component w))%nat
    then mkWorld (if resend_acknowledged net
                  then armed (resumed_resend (component w))
                  else set_resending false (resumed_resend (component w)))
           (localStorage w) (trace w ++ resend_events net)
    else w.
Proof.
  unfold step, react, exec.
  destruct (0 <? resending (component w))%nat; [| done].
  unfold bind, resume_resend, update.
  by rewrite handleResendOTP_resume_spec.
Qed.

Lemma tick_spec env email handle (w : World Instance) :
  step env email w (Tick handle)
  = if decide (handle ∈ intervals (component w))
    then mkWorld (ticked (component w)) (localStorage w) (trace w)
    else w.
Proof.
  unfold step, react, exec. case_decide; [| done].
  unfold countdown_tick, ticked, setTimeLeft, setCountdownRef, clearInterval.
  unfold_monad. simpl.
  destruct (timeLeft (hooks (component w)) <=? 1); simpl; [| done].
  destruct (ref_truthy (countdownRef (component w))); done.
Qed.

(** The inputs of the verification side leave the cooldown alone. *)
Lemma verify_side_keeps_cooldown env email (w : World Instance) (i : Input) :
  is_timer_input i = false →
  cooldown_of (component (step env email w i)) = cooldown_of (component w).
Proof.
  unfold step, exec, react.
  destruct i as [input | clipboard | | | net | net | h]; try done; intros _.
  - unfold handleOtpChange_begin, setOtp, suspend_if, suspend_verify.
    unfold bind at 1. unfold bind at 1. unfold update at 1. simpl.
    destruct (String.length (accumulate input) =? 6)%nat; [| done].
    rewrite handleVerify_begin_spec.
    by destruct (six_digits (otp (render w))).
  - unfold handlePaste_begin, setOtp, suspend_if, suspend_verify.
    unfold bind at 1. unfold bind at 1. unfold emit at 1. simpl.
    destruct (String.eqb (accumulate clipboard) ""); [done |]. simpl.
    unfold bind at 1. unfold update at 1. simpl.
    destruct (String.length (accumulate clipboard) =? 6)%nat; [| done].
    rewrite handleVerify_begin_spec.
    by destruct (six_digits (otp (render w))).
  - unfold bind at 1. rewrite handleVerify_begin_spec.
    by destruct (six_digits (otp (render w))).
  - destruct (0 <? verifying (component w))%nat; [| done].
    unfold bind, resume_verify, update. by rewrite handleVerify_resume_spec.
Qed.

(** [cooldown_ok] holds on mount and is kept by every input. *)
Lemma cooldown_ok_initial : cooldown_ok initial.
Proof.
  unfold cooldown_ok, idle, initial; simpl.
  repeat split; try done. by left.
Qed.

Lemma cooldown_ok_step env email (w : World Instance) (i : Input) :
  cooldown_ok (component w) → cooldown_ok (component (step env email w i)).
Proof.
  intros Hok.
  destruct (is_timer_input i) eqn:Hi;
    [| by apply (cooldown_ok_ext (component w)); [apply verify_side_keeps_cooldown |]].
  pose proof Hok as (Hn & Hphase & Hres & Hfly).
  destruct i as [| | | | | net | h]; try done.
  - (* ClickResend *)
    rewrite click_resend_spec. unfold render.
    destruct (isResending (hooks (component w))) eqn:Hr; simpl; [exact Hok |].
    destruct (0 <? timeLeft (hooks (component w))) eqn:Ht; simpl; [exact Hok |].
    apply Z.ltb_ge in Ht.
    assert (timeLeft (hooks (component w)) = 0) as H0.
    { destruct Hphase as [(_ & _ & ?) | (h & _ & _ & _ & ?)]; lia. }
    unfold cooldown_ok, idle, counting. simpl. rewrite Hres.
    repeat split; done.
  - (* ResendSettles *)
    rewrite resend_settles_spec.
    destruct (0 <? resending (component w))%nat eqn:Hpos;
      [| exact Hok].
    apply Nat.ltb_lt in Hpos.
    destruct (isResending (hooks (component w))) eqn:Hr; [| lia].
    specialize (Hfly eq_refl).
    assert (idle (component w)) as (Href & Hint & _).
    { destruct Hphase as [? | (h & _ & _ & _ & ?)]; [done | lia]. }
    destruct (resend_acknowledged net); simpl.
    + unfold cooldown_ok, idle, counting, armed. simpl. rewrite Href, Hint. simpl.
      repeat split; try lia; try done.
      right. exists (nextHandle (component w)).
      repeat split; try lia; try done. apply (right_id_L ∅ (∪)).
    + unfold cooldown_ok, idle, counting. simpl. rewrite Hres.
      repeat split; done.
  - (* Tick *)
    rewrite tick_spec. case_decide as Hin; [| exact Hok]. simpl.
    destruct Hphase as [(_ & Hint & _) | (h' & Hh & Href & Hint & Ht)];
      [ rewrite Hint in Hin; by apply not_elem_of_empty in Hin |].
    assert (isResending (hooks (component w)) = false) as Hr.
    { destruct (isResending (hooks (component w))); [| done].
      specialize (Hfly eq_refl). lia. }
    unfold ticked. rewrite Href. simpl.
    destruct (timeLeft (hooks (component w)) <=? 1) eqn:Hle.
    + assert ((h' =? 0)%nat = false) as -> by (apply Nat.eqb_neq; lia). simpl.
      unfold cooldown_ok, idle, counting. simpl. rewrite Hres, Hr, Hint.
      repeat split; try done. left. repeat split. apply difference_diag_L.
    + apply Z.leb_gt in Hle.
      unfold cooldown_ok, idle, counting. simpl. rewrite Hres, Hr.
      repeat split; try done. right. exists h'. repeat split; try done; lia.
Qed.

Lemma cooldown_ok_run env email (inputs : list Input) (w : World Instance) :
  cooldown_ok (component w) → cooldown_ok (component (run env email w inputs)).
Proof.
  revert w. induction inputs as [| i inputs IH]; intros w Hok; [done |].
  simpl. apply IH. by apply cooldown_ok_step.
Qed.

Lemma reachable_cooldown_ok env email (w : World Instance) :
  reachable env email w → cooldown_ok (component w).
Proof.
  intros (ls & inputs & ->). apply cooldown_ok_run. apply cooldown_ok_initial.
Qed.

Lemma in_flight_is_idle (c : Instance) :
  cooldown_ok c → (0 < resending c)%nat →
  isResending (hooks c) = true ∧ idle c.
Proof.
  intros (_ & Hphase & Hres & Hfly) Hpos.
  destruct (isResending (hooks c)); [| lia]. split; [done |].
  specialize (Hfly eq_refl).
  destruct Hphase as [? | (h & _ & _ & _ & ?)]; [done | lia].
Qed.

Lemma running_is_counting (c : Instance) (h : nat) :
  cooldown_ok c → h ∈ intervals c →
  (1 ≤ h)%nat ∧ countdownRef c = Some h ∧ intervals c = {[h]}
  ∧ 1 ≤ timeLeft (hooks c) ≤ 60 ∧ isResending (hooks c) = false.
Proof.
  intros (_ & Hphase & _ & Hfly) Hin.
  destruct Hphase as [(_ & Hint & _) | (h' & Hh & Href & Hint & Ht)].
  { rewrite Hint in Hin. by apply not_elem_of_empty in Hin. }
  rewrite Hint in Hin. apply elem_of_singleton in Hin. subst h'.
  repeat split; try done; try lia.
  destruct (isResending (hooks c)); [| done]. specialize (Hfly eq_refl). lia.
Qed.

(** C2.  (1) A resend click while [isResending] or while the cooldown is
    positive changes nothing: no state, no event, no request.  (2) In every
    state the instance can reach, at most one interval timer runs, and it is
    the one [countdownRef] holds.  (3) When a resend in flight is
    acknowledged, the cooldown becomes 60 and the timer then running is the
    new one alone.  (4) Each firing of the running timer takes exactly one
    off the cooldown, which never goes below 0, and the timer is cleared at
    the firing that reaches 0 and not before.  (5) While the cooldown is
    positive nothing but that timer changes it.  (6) Whatever state the
    acknowledgement finds, reachable or not, the timer [countdownRef] held
    before is no longer running afterwards. *)
Theorem resend_cooldown env email :
  (∀ w : World Instance,
     isResending (render w) = true ∨ 0 < timeLeft (render w) →
     step env email w ClickResend = w)
  ∧ (∀ w : World Instance,
       reachable env email w →
       (size (intervals (component w)) ≤ 1)%nat
       ∧ ∀ h, h ∈ intervals (component w) → countdownRef (component w) = Some h)
  ∧ (∀ (w : World Instance) net,
       reachable env email w →
       (0 < resending (component w))%nat →
       resend_acknowledged net = true →
       let c' := component (step env email w (ResendSettles net)) in
       timeLeft (hooks c') = 60
       ∧ intervals c' = {[nextHandle (component w)]}
       ∧ countdownRef c' = Some (nextHandle (component w)))
  ∧ (∀ (w : World Instance) h,
       reachable env email w →
       h ∈ intervals (component w) →
       let c' := component (step env email w (Tick h)) in
       timeLeft (hooks c') = timeLeft (hooks (component w)) - 1
       ∧ 0 ≤ timeLeft (hooks c')
       ∧ intervals c' = (if timeLeft (hooks c') =? 0 then ∅ else {[h]}))
  ∧ (∀ (w : World Instance) i,
       reachable env email w →
       0 < timeLeft (render w) →
       (∀ h, i = Tick h → h ∉ intervals (component w)) →
       timeLeft (render (step env email w i)) = timeLeft (render w))
  ∧ (∀ (w : World Instance) net h,
       (0 < resending (component w))%nat →
       resend_acknowledged net = true →
       countdownRef (component w) = Some h →
       (0 < h < nextHandle (component w))%nat →
       h ∉ intervals (component (step env email w (ResendSettles net)))).
Proof.
  split; [| split; [| split; [| split; [| split]]]].
  - intros w Hbusy. rewrite click_resend_spec.
    destruct Hbusy as [-> | Ht]; [done |].
    apply Z.ltb_lt in Ht. rewrite Ht. by rewrite orb_true_r.
  - intros w Hw%reachable_cooldown_ok.
    destruct Hw as (_ & [(_ & Hint & _) | (h & _ & Href & Hint & _)] & _);
      rewrite Hint.
    + rewrite size_empty. split; [lia |]. intros h Hin.
      by apply not_elem_of_empty in Hin.
    + rewrite size_singleton. split; [lia |]. intros h' Hin.
      apply elem_of_singleton in Hin. by subst h'.
  - intros w net Hw%reachable_cooldown_ok Hpos Hack.
    destruct (in_flight_is_idle _ Hw Hpos) as (_ & Href & Hint & _).
    rewrite resend_settles_spec.
    apply Nat.ltb_lt in Hpos. rewrite Hpos, Hack. simpl.
    rewrite Href, Hint. simpl. repeat split. apply (right_id_L ∅ (∪)).
  - intros w h Hw%reachable_cooldown_ok Hin.
    destruct (running_is_counting _ h Hw Hin) as (Hh & Href & Hint & Ht & _).
    rewrite tick_spec. rewrite decide_True by done. simpl.
    unfold ticked. rewrite Href. simpl.
    assert ((h =? 0)%nat = false) as -> by (apply Nat.eqb_neq; lia). simpl.
    destruct (timeLeft (hooks (component w)) <=? 1) eqn:Hle; simpl.
    + apply Z.leb_le in Hle. rewrite Hint.
      repeat split; try lia. apply difference_diag_L.
    + apply Z.leb_gt in Hle.
      assert ((timeLeft (hooks (component w)) - 1 =? 0) = false) as ->
        by (apply Z.eqb_neq; lia).
      repeat split; try lia. done.
  - intros w i Hw%reachable_cooldown_ok Hpos Hother.
    destruct (is_timer_input i) eqn:Hi.
    2:{ pose proof (verify_side_keeps_cooldown env email w i Hi) as Hkeep.
        unfold cooldown_of in Hkeep. unfold render. by injection Hkeep. }
    destruct i as [| | | | | net | h]; try done.
    + rewrite click_resend_spec. apply Z.ltb_lt in Hpos. rewrite Hpos.
      by rewrite orb_true_r.
    + rewrite resend_settles_spec.
      destruct (0 <? resending (component w))%nat eqn:Hfly; [| done].
      apply Nat.ltb_lt in Hfly.
      destruct (in_flight_is_idle _ Hw Hfly) as (_ & _ & _ & H0).
      unfold render in Hpos. lia.
    + rewrite tick_spec. rewrite decide_False; [done |]. by apply Hother.
  - intros w net h Hpos Hack Href Hh.
    rewrite resend_settles_spec.
    apply Nat.ltb_lt in Hpos. rewrite Hpos, Hack. simpl. rewrite Href. simpl.
    assert ((h =? 0)%nat = false) as -> by (apply Nat.eqb_neq; lia). simpl.
    rewrite elem_of_union, elem_of_singleton, elem_of_difference, elem_of_singleton.
    intros [Heq | [_ Hne]]; [lia | done].
Qed.

Example cooldown_armed :
  timeLeft (render (one_cooldown 0)) = 60
  ∧ elements (intervals (component (one_cooldown 0))) = [1%nat].
Proof. split; vm_compute; reflexivity. Qed.

Example cooldown_after_59_seconds :
  timeLeft (render (one_cooldown 59)) = 1
  ∧ elements (intervals (component (one_cooldown 59))) = [1%nat].
Proof. split; vm_compute; reflexivity. Qed.

Example cooldown_after_60_seconds :
  timeLeft (render (one_cooldown 60)) = 0
  ∧ elements (intervals (component (one_cooldown 60))) = []
  ∧ countdownRef (component (one_cooldown 60)) = None.
Proof. repeat split; vm_compute; reflexivity. Qed.

End VerificationFlow.

(* ===================================================================== *)
(** ** Properties of the recovery flow controller *)
(* ===================================================================== *)



(** A submission that is still in flight when the modal is closed sets the
    success flag when it resolves: the closed modal is back in [Sent]. *)
Lemma late_success_after_close env email (r : Response.t) data (w : World ForgotPasswordModal.State) :
  200 ≤ Response.status r ≤ 299 → body_of r = Some data →
  let submitted := exec (ForgotPasswordModal.handleSubmit_begin env (ForgotPasswordModal.mk email false false)) w in
  let closed := exec ForgotPasswordModal.handleClose submitted in
  let settled := exec (ForgotPasswordModal.handleSubmit_resume (Responded r)) closed in
  component closed = ForgotPasswordModal.mk "" true false
  ∧ component settled = ForgotPasswordModal.mk "" false true
  ∧ ForgotPasswordModal.phase (component settled) = ForgotPasswordModal.Sent.
Proof.
  intros Hok Hb. destruct (settle_resolved r data Hok Hb) as [Hev Hc].
  unfold ForgotPasswordModal.handleSubmit_begin, ForgotPasswordModal.handleClose, ForgotPasswordModal.handleSubmit_resume,
    forgotPassword_call, ForgotPasswordModal.setIsLoading, ForgotPasswordModal.setIsSuccess, ForgotPasswordModal.setEmail.
  step_request. simpl. rewrite Hc. simpl. done.
Qed.

Lemma late_success_after_close_witness :
  let submitted :=
    exec (ForgotPasswordModal.handleSubmit_begin dev
            (ForgotPasswordModal.mk "a@b.com" false false))
      (mkWorld (ForgotPasswordModal.mk "a@b.com" false false) ∅ []) in
  let closed := exec ForgotPasswordModal.handleClose submitted in
  let settled :=
    exec (ForgotPasswordModal.handleSubmit_resume
            (json_response 200 (JObj [("message", JStr "sent")]))) closed in
  component closed = ForgotPasswordModal.mk "" true false
  ∧ component settled = ForgotPasswordModal.mk "" false true
  ∧ ForgotPasswordModal.phase (component settled) = ForgotPasswordModal.Sent.
Proof.
  apply (late_success_after_close dev "a@b.com"
           (Response.mk 200 (Normal (JObj [("message", JStr "sent")]))
              (Throw body_already_read))
           (JObj [("message", JStr "sent")])
           (mkWorld (ForgotPasswordModal.mk "a@b.com" false false) ∅ []));
    [ simpl; lia | reflexivity ].
Defined.

(* ===================================================================== *)
(** ** Further properties of the transport client and the session store *)
(* ===================================================================== *)

Lemma settle_resolved_with net data :
  resolved_with net data → settle_completion net = Normal data.
Proof.
  intros (r & -> & Hok & Hb). unfold settle_completion, completion.
  by rewrite (settle_success r data nowhere Hok Hb).
Qed.

Lemma settle_normalized_failure net e :
  normalized_failure net e → settle_completion net = Throw e.
Proof.
  unfold settle_completion, completion.
  intros [(cause & Hcause & ->) | (r & data & m & -> & Hok & Hb & Hn & Hm & ->)].
  - destruct Hcause as [[-> | (r & e1 & -> & Hj & Ht)]
                       | (r & data & -> & Hok & Hb & [[Hn ->] | (Hn & Hm & ->)])].
    + unfold settle. unfold_monad. simpl. by destruct cause.
    + unfold settle, read_body. unfold_monad. rewrite Hj, Ht. simpl.
      by destruct cause.
    + unfold settle. unfold try_catch at 1. unfold bind at 1.
      rewrite (read_body_received _ _ _ Hb), Hok. simpl.
      unfold_monad. simpl. unfold get_prop. rewrite Hn. simpl. done.
    + rewrite <- error_message_classified in Hm by done.
      unfold settle. unfold try_catch at 1. unfold bind at 1.
      rewrite (read_body_received _ _ _ Hb), Hok. simpl.
      unfold_monad. simpl. unfold get_prop, new_APIError. rewrite Hn, Hm. done.
  - rewrite <- error_message_classified in Hm by done.
    unfold classified_details.
    by rewrite (settle_failure r data m nowhere Hok Hb Hn Hm).
Qed.

Lemma settle_outcome_exists net :
  (∃ data, resolved_with net data) ∨ (∃ e, normalized_failure net e).
Proof.
  destruct net as [cause | r].
  - right. eexists. left. exists cause. split; [by left; left | done].
  - destruct (body_of r) as [data |] eqn:Hb.
    + destruct (Response.ok r) eqn:Hok; [left; exists data; by exists r |].
      right. destruct (nullish data) eqn:Hn.
      * eexists. left. eexists. split; [| done].
        right. exists r, data. split; [done |]. split; [done |]. split; [done |].
        by left.
      * destruct (classified_message data) as [m |] eqn:Hm.
        -- eexists. right. by exists r, data, m.
        -- eexists. left. eexists. split; [| done].
           right. exists r, data. split; [done |]. split; [done |].
           split; [done |]. by right.
    + right. unfold body_of in Hb.
      destruct (Response.json r) as [v | e1] eqn:Hj; [done |].
      destruct (Response.text r) as [t | cause] eqn:Ht; [done |].
      eexists. left. exists cause. split; [| done].
      left. right. by exists r, e1.
Qed.

(** Every way [apiRequest] can end, and when.  It resolves exactly with the
    body of a response whose status is in [200,299].  It fails exactly in
    the ways of [normalized_failure]: a response outside [200,299] with a
    body other than [null] gives an [APIError] with its status, the
    classified message and the classified details; a rejection of [fetch]
    or of the body read, a [null] body outside [200,299], and an [error]
    field without a string form give "Network error" with status 0 and the
    message of the failure as details (an [APIError] the platform itself
    rejected with is passed on).  So it never fails with anything but an
    [APIError]. *)
Theorem send_outcomes {S} env endpoint options net (w : World S) :
  (∀ data,
     completion (apiRequest env endpoint options net) w = Normal data
     ↔ ∃ r, net = Responded r ∧ 200 ≤ Response.status r ≤ 299
            ∧ body_of r = Some data)
  ∧ (∀ e,
       completion (apiRequest env endpoint options net) w = Throw e
       ↔ normalized_failure net e)
  ∧ (∀ e,
       completion (apiRequest env endpoint options net) w = Throw e →
       instanceof_APIError e = true).
Proof.
  unfold completion. rewrite apiRequest_spec. simpl.
  assert (∀ data, resolved_with net data
                  ↔ ∃ r, net = Responded r ∧ 200 ≤ Response.status r ≤ 299
                         ∧ body_of r = Some data) as Hres.
  { intros data. unfold resolved_with.
    split; intros (r & ? & ? & ?); exists r; by rewrite ?ok_iff in *. }
  assert (∀ e, settle_completion net = Throw e → normalized_failure net e) as Hfail.
  { intros e He.
    destruct (settle_outcome_exists net) as [(data & H) | (e' & H)].
    - apply settle_resolved_with in H. congruence.
    - pose proof (settle_normalized_failure _ _ H). congruence. }
  split; [| split].
  - intros data. rewrite <- Hres. split; [| apply settle_resolved_with].
    intros He. destruct (settle_outcome_exists net) as [(data' & H) | (e' & H)].
    + pose proof (settle_resolved_with _ _ H). congruence.
    + apply settle_normalized_failure in H. congruence.
  - intros e. split; [apply Hfail | apply settle_normalized_failure].
  - intros e He. apply Hfail in He.
    destruct He as [(cause & _ & ->) | (r & data & m & _ & _ & _ & _ & _ & ->)];
      [by destruct cause | done].
Qed.

(** A request is one call of [fetch] and nothing else: the component and
    [localStorage] are left alone, and of the events it adds exactly one is
    a request, the first. *)
Theorem send_is_one_request {S} env endpoint options net (w : World S) :
  let w' := exec (apiRequest env endpoint options net) w in
  component w' = component w
  ∧ localStorage w' = localStorage w
  ∧ ∃ evs, trace w' = (trace w
                         ++ Fetch (build_request env (localStorage w) endpoint options)
                         :: evs)%list
           ∧ List.filter is_fetch evs = [].
Proof.
  unfold exec. rewrite apiRequest_spec. simpl. repeat split.
  exists (settle_events net). split; [done |].
  pose proof (settle_no_fetch net) as H.
  induction (settle_events net) as [| e evs IH]; [done |].
  simpl in *. apply andb_true_iff in H as [He H].
  destruct (is_fetch e); [done | by apply IH].
Qed.

(** The session store is one slot of [localStorage]: a token that was set is
    the token read back, the later of two writes wins, a removed token is
    gone, the store counts as authenticated exactly for a non-empty token,
    and no other key of [localStorage] is touched. *)
Theorem session_store_round_trip {S} (t t' : string) (w : World S) :
  completion (setToken t ;;; getToken) w = Normal (Some t)
  ∧ completion (setToken t ;;; setToken t' ;;; getToken) w = Normal (Some t')
  ∧ completion (setToken t ;;; isAuthenticated) w
    = Normal (negb (String.eqb t ""))
  ∧ completion (setToken t ;;; removeToken ;;; getToken) w = Normal None
  ∧ completion (removeToken ;;; isAuthenticated) w = Normal false
  ∧ (∀ k, k ≠ "auth_token" →
          localStorage (exec (setToken t) w) !! k = localStorage w !! k
          ∧ localStorage (exec removeToken w) !! k = localStorage w !! k).
Proof.
  unfold setToken, getToken, removeToken, isAuthenticated. unfold_monad. simpl.
  rewrite !lookup_insert_eq, !lookup_delete_eq. simpl.
  repeat split; try done.
  - by rewrite lookup_insert_ne.
  - by rewrite lookup_delete_ne.
Qed.

Lemma build_request_of_operation env ls endpoint (method : option string)
    (body : option Body) :
  build_request env ls endpoint (Options.mk method None body None None)
  = operation_request env ls endpoint (default "POST" method) body.
Proof.
  unfold build_request, operation_request, add_auth, config_literal, spread_headers.
  simpl. rewrite (left_id_L ∅ (∪)). by destruct (token_truthy _).
Qed.

(** The requests of the credential operations.  None of them passes headers
    of its own, so each goes out with both default headers, with the bearer
    when a non-empty token is stored, in mode "cors" with credentials
    included; each names its endpoint and its JSON body, and all but
    [getProfile], which has no body, name their method. *)
Theorem credential_operations_requests {S} env net (w : World S)
    (userData credentials profileData : JSValue) (email otp : string) :
  let ls := localStorage w in
  let sent (req : Request.t) := log (Fetch req :: settle_events net) w in
  let json v := Some (JSON_stringify v) in
  exec (register env userData net) w
  = sent (operation_request env ls "/auth/register" "POST" (json userData))
  ∧ exec (login env credentials net) w
    = sent (operation_request env ls "/auth/login" "POST" (json credentials))
  ∧ exec (verifyEmail env email otp net) w
    = sent (operation_request env ls "/auth/verify-email" "POST"
              (json (JObj [("email", JStr email); ("otp", JStr otp)])))
  ∧ exec (forgotPassword env email net) w
    = sent (operation_request env ls "/auth/forgot-password" "POST"
              (json (JObj [("email", JStr email)])))
  ∧ exec (resendOtp env email net) w
    = sent (operation_request env ls "/auth/resend-otp" "POST"
              (json (JObj [("email", JStr email)])))
  ∧ exec (updateProfile env profileData net) w
    = sent (operation_request env ls "/users/me" "PUT" (json profileData))
  ∧ exec (getProfile env net) w
    = sent (operation_request env ls "/users/me" "POST" None).
Proof.
  intros ls sent json. subst ls sent json.
  unfold register, login, verifyEmail, forgotPassword, resendOtp, updateProfile,
    getProfile, verifyEmail_call, forgotPassword_call, resendOtp_call, post,
    Options.empty.
  repeat split; step_request; cbn [fst snd]; rewrite ?log_log;
    by rewrite build_request_of_operation.
Qed.



(* ===================================================================== *)
(** ** Further properties of login, registration and the page *)
(* ===================================================================== *)

(** The rest object of a destructuring has every property but the one taken
    out. *)
Lemma own_filter_out (k : string) (fields : list (string * JSValue)) :
  own k (List.filter (λ kv, negb (String.eqb kv.1 k)) fields) = JUndefined.
Proof.
  induction fields as [| [k' v] fields IH]; simpl; [done |].
  destruct (String.eqb k' k) eqn:E; simpl; [done |].
  rewrite String.eqb_sym, E. done.
Qed.

Lemma own_filter_other (k k' : string) (fields : list (string * JSValue)) :
  k' ≠ k →
  own k' (List.filter (λ kv, negb (String.eqb kv.1 k)) fields) = own k' fields.
Proof.
  intros Hne. induction fields as [| [k0 v] fields IH]; simpl; [done |].
  destruct (String.eqb k0 k) eqn:E; simpl.
  - apply String.eqb_eq in E. subst k0.
    destruct (String.eqb k' k) eqn:E'; [by apply String.eqb_eq in E' | done].
  - by rewrite IH.
Qed.

(** The parent after a child whose run is known. *)
Lemma after_child_spec {P C A} (wire : Event → M P unit) (child : M C A)
    (wc : World C) (wp : World P) c ls evs r :
  child wc = (mkWorld c ls (trace wc ++ evs), r) →
  after_child wire child wc wp
  = exec (deliver wire evs) (mkWorld (component wp) ls (trace wp)).
Proof.
  intros H. unfold after_child, exec at 2 3. rewrite H. simpl.
  by rewrite drop_app_length.
Qed.

Lemma login_with_token env email password (r : Response.t) body t
    (w : World AuthModal.State) :
  200 ≤ Response.status r ≤ 299 →
  body_of r = Some body →
  truthy (get body "token") = true →
  ToString (get body "token") = Some t →
  AuthModal.handleLogin env email password (Responded r) w
  = (mkWorld (not_loading (component w)) (<["auth_token" := t]> (localStorage w))
       (trace w ++ welcomed_events env (localStorage w) email password body),
     Normal tt).
Proof.
  intros Hok Hb Ht Hs. destruct (settle_resolved r body Hok Hb) as [Hev Hc].
  assert (nullish body = false) as Hn by (by destruct body).
  unfold AuthModal.handleLogin, login, AuthModal.setIsLoading, destructure_token,
    to_string, setToken.
  step_request. simpl. step_request. rewrite Hev, Hc. simpl. rewrite Hn. simpl.
  rewrite Ht, Hs. simpl. unfold welcomed_events, login_request, not_loading.
  rewrite <- !app_assoc. reflexivity.
Qed.

(** A login that resolves with a truthy token that has a string form [t],
    from the form to the page.  [t] is what is stored; [onLoginSuccess] gets
    the body without its [token] property and every other property
    unchanged; the page is authenticated with that user and the modal
    closed.  From then on [getToken] returns [t].  A truthy token can have
    an empty string form (the array [[]] has), so the last two parts are
    conditional: a request without headers of its own carries
    "Bearer " followed by [t] exactly when [t] is not empty, and a page
    mounted afresh on that storage is authenticated exactly when [t] is not
    empty, and has no user either way. *)
Theorem login_success_reaches_the_page env email password (r : Response.t)
    (body : JSValue) (t : string) (w : World AuthModal.State)
    (page : World Index.State) :
  200 ≤ Response.status r ≤ 299 →
  body_of r = Some body →
  truthy (get body "token") = true →
  ToString (get body "token") = Some t →
  let user := rest_without "token" body in
  let w' := exec (AuthModal.handleLogin env email password (Responded r)) w in
  let page' :=
    after_child Index.onAuthModal
      (AuthModal.handleLogin env email password (Responded r)) w page in
  let reloaded := exec Index.onMount (mkWorld Index.initial (localStorage w') []) in
  localStorage w' = <["auth_token" := t]> (localStorage w)
  ∧ trace w' = (trace w ++ welcomed_events env (localStorage w) email password body)%list
  ∧ AuthModal.isLoading (component w') = false
  ∧ get user "token" = JUndefined
  ∧ (∀ k, k ≠ "token" → get user k = get body k)
  ∧ component page' = Index.mk false true user
  ∧ completion getToken page' = Normal (Some t)
  ∧ Request.headers (build_request env (localStorage w') "/users/me" Options.empty)
      !! "Authorization"
    = (if String.eqb t "" then None else Some ("Bearer " +:+ t))
  ∧ component reloaded = Index.mk false (negb (String.eqb t "")) JUndefined.
Proof.
  intros Hok Hb Ht Hs user w' page' reloaded. subst user w' page' reloaded.
  pose proof (login_with_token env email password r body t w Hok Hb Ht Hs) as H.
  rewrite (after_child_spec _ _ _ _ _ _ _ _ H).
  unfold exec at 1 2 3 5 6. rewrite H. simpl.
  destruct body as [| | | | | | fields]; try done. simpl.
  split; [done |]. split; [done |]. split; [done |].
  split; [apply own_filter_out |].
  split; [intros k Hk; by apply own_filter_other |].
  split; [done |].
  assert (<["auth_token" := t]> (localStorage w) !! "auth_token" = Some t) as E
    by apply lookup_insert_eq.
  split; [unfold_monad; simpl; by rewrite E |].
  split.
  - unfold build_request. rewrite lookup_add_auth, E. simpl.
    destruct (String.eqb t ""); simpl; [| done].
    unfold spread_headers. simpl. by rewrite (left_id_L ∅ (∪)).
  - unfold Index.onMount, getToken, Index.setIsAuthenticated. unfold_monad. simpl.
    rewrite H. simpl. by rewrite E.
Qed.

Lemma login_success_reaches_the_page_witness :
  let body := sample_login in
  let user := rest_without "token" body in
  let w' :=
    exec (AuthModal.handleLogin dev "a@b.com" "secret" (json_response 200 body))
      at_rest in
  let page' :=
    after_child Index.onAuthModal
      (AuthModal.handleLogin dev "a@b.com" "secret" (json_response 200 body))
      at_rest fresh_page in
  let reloaded := exec Index.onMount (mkWorld Index.initial (localStorage w') []) in
  localStorage w' = <["auth_token" := "t0k3n"]> ∅
  ∧ trace w' = ([] ++ welcomed_events dev ∅ "a@b.com" "secret" body)%list
  ∧ AuthModal.isLoading (component w') = false
  ∧ get user "token" = JUndefined
  ∧ (∀ k, k ≠ "token" → get user k = get body k)
  ∧ component page' = Index.mk false true user
  ∧ completion getToken page' = Normal (Some "t0k3n")
  ∧ Request.headers (build_request dev (localStorage w') "/users/me" Options.empty)
      !! "Authorization"
    = (if String.eqb "t0k3n" "" then None else Some ("Bearer " +:+ "t0k3n"))
  ∧ component reloaded = Index.mk false (negb (String.eqb "t0k3n" "")) JUndefined.
Proof.
  apply (login_success_reaches_the_page dev "a@b.com" "secret"
           (Response.mk 200 (Normal sample_login) (Throw body_already_read))
           sample_login "t0k3n" at_rest fresh_page);
    [ simpl; lia | reflexivity .. ].
Defined.

(** A login rejected with a message that contains "Email not verified" opens
    the verification modal for the email that was submitted: no toast, no
    token, no callback; the details of the error are not looked at. *)
Theorem login_unverified_opens_verification env email password (r : Response.t)
    (data : JSValue) (m : string) (w : World AuthModal.State) :
  ¬ (200 ≤ Response.status r ≤ 299) →
  body_of r = Some data → nullish data = false →
  classified_message data = Some m →
  includes m "Email not verified" = true →
  AuthModal.handleLogin env email password (Responded r) w
  = (mkWorld (awaiting_code email (component w)) (localStorage w)
       (trace w ++ login_rejected_events env (localStorage w) email password),
     Normal tt).
Proof.
  intros Hok Hb Hn Hm Hi.
  destruct (settle_rejected r data m Hok Hb Hn Hm) as [Hev Hc].
  unfold AuthModal.handleLogin, login, AuthModal.setIsLoading,
    AuthModal.setPendingVerificationEmail, AuthModal.setIsOTPModalOpen.
  step_request. simpl. step_request. rewrite Hev, Hc. simpl. rewrite Hi. simpl.
  unfold login_rejected_events, login_request, awaiting_code.
  rewrite <- !app_assoc. reflexivity.
Qed.

Lemma login_unverified_opens_verification_witness :
  AuthModal.handleLogin dev "a@b.com" "secret"
    (json_response 403 (JObj [("error", JStr "Email not verified")])) at_rest
  = (mkWorld (awaiting_code "a@b.com" AuthModal.initial) ∅
       ([] ++ login_rejected_events dev ∅ "a@b.com" "secret"),
     Normal tt).
Proof.
  apply (login_unverified_opens_verification dev "a@b.com" "secret"
           (Response.mk 403 (Normal (JObj [("error", JStr "Email not verified")]))
              (Throw body_already_read))
           (JObj [("error", JStr "Email not verified")]) "Email not verified" at_rest);
    [ simpl; lia | reflexivity .. ].
Defined.

(** A login whose request never got a response.  The failure reaches the
    handler as "Network error" with the platform's description as details: a
    "Sign in failed" toast says "Network error", unless that description
    happens to contain "not verified", in which case the verification modal
    opens instead. *)
Theorem login_network_failure env email password (name description : string)
    (w : World AuthModal.State) :
  AuthModal.handleLogin env email password
    (Rejected (NativeError name description)) w
  = (if includes description "not verified"
     then mkWorld (awaiting_code email (component w)) (localStorage w)
            (trace w ++ network_failure_events env (localStorage w) email password)
     else mkWorld (not_loading (component w)) (localStorage w)
            (trace w ++ network_failure_events env (localStorage w) email password
                     ++ [Toast "Sign in failed" (JStr "Network error") true]),
     Normal tt).
Proof.
  unfold AuthModal.handleLogin, login, AuthModal.setIsLoading,
    AuthModal.setPendingVerificationEmail, AuthModal.setIsOTPModalOpen.
  step_request. simpl. step_request.
  unfold settle_events, settle_completion, settle, nowhere. unfold_monad. simpl.
  destruct (includes description "not verified"); simpl;
    unfold network_failure_events, login_request, awaiting_code, not_loading;
    rewrite <- !app_assoc; reflexivity.
Qed.

Lemma register_with_token_run env form (r : Response.t) body t
    (w : World AuthModal.State) :
  200 ≤ Response.status r ≤ 299 →
  body_of r = Some body →
  truthy (get body "needsVerification") = false →
  truthy (get body "token") = true →
  ToString (get body "token") = Some t →
  AuthModal.handleRegister env form (Responded r) w
  = (mkWorld (not_loading (component w)) (<["auth_token" := t]> (localStorage w))
       (trace w ++ signed_up_events env (localStorage w) form body),
     Normal tt).
Proof.
  intros Hok Hb Hv Ht Hs. destruct (settle_resolved r body Hok Hb) as [Hev Hc].
  assert (nullish body = false) as Hn by (by destruct body).
  unfold AuthModal.handleRegister, register, AuthModal.setIsLoading, to_string,
    setToken, get_opt.
  step_request. simpl. step_request. rewrite Hev, Hc. simpl. rewrite Hn.
  rewrite Hv, Ht, Hs. simpl.
  unfold signed_up_events, register_request, not_loading.
  rewrite <- !app_assoc. reflexivity.
Qed.

(** A registration that resolves with no need for verification and a truthy
    token that has a string form [t] signs the user in: [t] is stored, the
    page is authenticated with the [user] field of the body (undefined when
    there is none) and the modal is closed; the verification modal is not
    opened. *)
Theorem register_with_token_signs_in env form (r : Response.t) (body : JSValue)
    (t : string) (w : World AuthModal.State) (page : World Index.State) :
  200 ≤ Response.status r ≤ 299 →
  body_of r = Some body →
  truthy (get body "needsVerification") = false →
  truthy (get body "token") = true →
  ToString (get body "token") = Some t →
  let w' := exec (AuthModal.handleRegister env form (Responded r)) w in
  let page' :=
    after_child Index.onAuthModal
      (AuthModal.handleRegister env form (Responded r)) w page in
  localStorage w' = <["auth_token" := t]> (localStorage w)
  ∧ component w' = not_loading (component w)
  ∧ trace w' = (trace w ++ signed_up_events env (localStorage w) form body)%list
  ∧ component page' = Index.mk false true (get body "user").
Proof.
  intros Hok Hb Hv Ht Hs w' page'. subst w' page'.
  pose proof (register_with_token_run env form r body t w Hok Hb Hv Ht Hs) as H.
  rewrite (after_child_spec _ _ _ _ _ _ _ _ H).
  unfold exec. rewrite H. done.
Qed.

Lemma register_with_token_signs_in_witness :
  let w' :=
    exec (AuthModal.handleRegister dev sample_form (json_response 201 sample_signup))
      at_rest in
  let page' :=
    after_child Index.onAuthModal
      (AuthModal.handleRegister dev sample_form (json_response 201 sample_signup))
      at_rest fresh_page in
  localStorage w' = <["auth_token" := "t0k3n"]> ∅
  ∧ component w' = not_loading AuthModal.initial
  ∧ trace w' = ([] ++ signed_up_events dev ∅ sample_form sample_signup)%list
  ∧ component page' = Index.mk false true (JObj [("id", JStr "u1")]).
Proof.
  apply (register_with_token_signs_in dev sample_form
           (Response.mk 201 (Normal sample_signup) (Throw body_already_read))
           sample_signup "t0k3n" at_rest fresh_page);
    [ simpl; lia | reflexivity .. ].
Defined.

(** A registration that resolves with neither marker is a failure: the toast
    says "Unexpected response from server", nothing is stored, no modal is
    opened and no callback runs.  The body [null] and text bodies are cases
    of it. *)
Theorem register_unexpected_response env form (r : Response.t) (body : JSValue)
    (w : World AuthModal.State) :
  200 ≤ Response.status r ≤ 299 →
  body_of r = Some body →
  truthy (get_opt body "needsVerification") = false →
  truthy (get_opt body "token") = false →
  AuthModal.handleRegister env form (Responded r) w
  = (mkWorld (not_loading (component w)) (localStorage w)
       (trace w ++ registration_failed_events env (localStorage w) form
                     [ConsoleLog "API success:";
                      ConsoleLog "Registration API response:";
                      ConsoleWarn "Unexpected response format:"]
                     "Unexpected response from server"),
     Normal tt).
Proof.
  intros Hok Hb Hv Ht. destruct (settle_resolved r body Hok Hb) as [Hev Hc].
  unfold AuthModal.handleRegister, register, AuthModal.setIsLoading.
  step_request. simpl. step_request. rewrite Hev, Hc. simpl.
  rewrite Hv, Ht. simpl.
  unfold registration_failed_events, register_request, not_loading. simpl.
  rewrite <- !app_assoc. reflexivity.
Qed.

Lemma register_unexpected_response_witness :
  AuthModal.handleRegister dev sample_form
    (json_response 200 (JObj [("ok", JBool true)])) at_rest
  = (mkWorld (not_loading AuthModal.initial) ∅
       ([] ++ registration_failed_events dev ∅ sample_form
                [ConsoleLog "API success:";
                 ConsoleLog "Registration API response:";
                 ConsoleWarn "Unexpected response format:"]
                "Unexpected response from server"),
     Normal tt).
Proof.
  apply (register_unexpected_response dev sample_form
           (Response.mk 200 (Normal (JObj [("ok", JBool true)]))
              (Throw body_already_read))
           (JObj [("ok", JBool true)]) at_rest);
    [ simpl; lia | reflexivity .. ].
Defined.

(** A registration whose request never got a response shows the platform's
    description of the failure ("Network error" when there is none): the
    message texts checked for "network" are lower case and the error is not
    a [TypeError], so the connectivity message is not the one shown. *)
Theorem register_network_failure env form (name description : string)
    (w : World AuthModal.State) :
  AuthModal.handleRegister env form (Rejected (NativeError name description)) w
  = (mkWorld (not_loading (component w)) (localStorage w)
       (trace w ++ registration_failed_events env (localStorage w) form
                     [ConsoleError "Network error:"]
                     (if String.eqb description "" then "Network error"
                      else description)),
     Normal tt).
Proof.
  unfold AuthModal.handleRegister, register, AuthModal.setIsLoading.
  step_request. simpl. step_request.
  unfold settle_events, settle_completion, settle, nowhere. unfold_monad. simpl.
  unfold AuthModal.registration_error_message. simpl.
  destruct (String.eqb description "") eqn:E; simpl; rewrite ?E; simpl;
    unfold registration_failed_events, register_request, not_loading; simpl;
    rewrite <- !app_assoc; reflexivity.
Qed.

Lemma register_rejected_run env form (r : Response.t) data m shown
    (w : World AuthModal.State) :
  ¬ (200 ≤ Response.status r ≤ 299) →
  body_of r = Some data → nullish data = false →
  classified_message data = Some m →
  AuthModal.registration_error_message
    (APIError m (Response.status r) (classified_details data)) = Normal shown →
  AuthModal.handleRegister env form (Responded r) w
  = (mkWorld (not_loading (component w)) (localStorage w)
       (trace w ++ registration_failed_events env (localStorage w) form
                     [ConsoleError "API error:"] shown),
     Normal tt).
Proof.
  intros Hok Hb Hn Hm Hshown.
  destruct (settle_rejected r data m Hok Hb Hn Hm) as [Hev Hc].
  unfold AuthModal.handleRegister, register, AuthModal.setIsLoading.
  step_request. simpl. step_request. rewrite Hev, Hc. simpl.
  rewrite Hshown. simpl.
  unfold registration_failed_events, register_request, not_loading. simpl.
  rewrite <- !app_assoc. reflexivity.
Qed.

(** A registration rejected with a message that contains "already exists"
    shows the fixed duplicate-account text, whatever the status and whatever
    details came with it. *)
Theorem register_already_exists env form (r : Response.t) (data : JSValue)
    (m : string) (w : World AuthModal.State) :
  ¬ (200 ≤ Response.status r ≤ 299) →
  body_of r = Some data → nullish data = false →
  classified_message data = Some m →
  includes m "already exists" = true →
  AuthModal.handleRegister env form (Responded r) w
  = (mkWorld (not_loading (component w)) (localStorage w)
       (trace w ++ registration_failed_events env (localStorage w) form
                     [ConsoleError "API error:"] already_exists_text),
     Normal tt).
Proof.
  intros Hok Hb Hn Hm Hi.
  apply (register_rejected_run env form r data m); try done.
  unfold AuthModal.registration_error_message. simpl. by rewrite Hi.
Qed.

Lemma register_already_exists_witness :
  AuthModal.handleRegister dev sample_form
    (json_response 409 (JObj [("error", JStr "User already exists")])) at_rest
  = (mkWorld (not_loading AuthModal.initial) ∅
       ([] ++ registration_failed_events dev ∅ sample_form
                [ConsoleError "API error:"] already_exists_text),
     Normal tt).
Proof.
  apply (register_already_exists dev sample_form
           (Response.mk 409 (Normal (JObj [("error", JStr "User already exists")]))
              (Throw body_already_read))
           (JObj [("error", JStr "User already exists")]) "User already exists"
           at_rest);
    [ simpl; lia | reflexivity .. ].
Defined.







(* ===================================================================== *)
(** ** Further properties of the verification flow *)
(* ===================================================================== *)

Lemma settle_calls_nothing (net : FetchOutcome) :
  forallb (λ e, negb (is_callback e)) (settle_events net) = true.
Proof.
  unfold settle_events, settle, read_body, nowhere.
  unfold_monad.
  destruct net as [[m s d | n m] | r]; simpl; try reflexivity.
  destruct (Response.json r) as [v|e1]; [| destruct (Response.text r) as [t|[]]];
    destruct (Response.ok r); simpl; try reflexivity.
  all: unfold get_prop, new_APIError.
  all: repeat match goal with |- context [nullish ?v] => destruct (nullish v) end; simpl.
  all: repeat match goal with |- context [ToString ?v] => destruct (ToString v) end; simpl.
  all: reflexivity.
Qed.

Lemma deliver_nothing {P} (wire : Event → M P unit) (evs : list Event)
    (w : World P) :
  (∀ e, is_callback e = false → wire e = ret tt) →
  forallb (λ e, negb (is_callback e)) evs = true →
  deliver wire evs w = (w, Normal tt).
Proof.
  intros Hwire. induction evs as [| e evs IH]; simpl; [done |].
  intros [He Hevs]%andb_true_iff. apply negb_true_iff in He.
  unfold bind. rewrite (Hwire e He). simpl. by apply IH.
Qed.

Lemma onOTPModal_ignores (e : Event) : is_callback e = false → onOTPModal e = ret tt.
Proof. by destruct e. Qed.

Section VerificationFlow.
Import OTPModal.

(** A verification that is acknowledged: the modal reports success and
    closes, the code and the cooldown stay as they were; in [AuthModal] the
    verification modal is closed, the tab is "login", and a second
    "Email verified!" toast is shown. *)
Theorem verification_success_returns_to_login (r : Response.t) (body : JSValue)
    (w : World Instance) (parent : World AuthModal.State) :
  200 ≤ Response.status r ≤ 299 →
  body_of r = Some body →
  acknowledged body = true →
  let parent' := after_child onOTPModal (handleVerify_resume (Responded r)) w parent in
  handleVerify_resume (Responded r) w
  = (mkWorld (set_loading false (component w)) (localStorage w)
       (trace w ++ ConsoleLog "API success:" :: verified_events body),
     Normal tt)
  ∧ component parent' = back_to_login (component parent)
  ∧ trace parent'
    = (trace parent
       ++ [Toast "Email verified!" (JStr "You can now sign in to your account.") false])%list.
Proof.
  intros Hok Hb Hack parent'. subst parent'.
  destruct (settle_resolved r body Hok Hb) as [Hev Hc].
  assert (handleVerify_resume (Responded r) w
          = (mkWorld (set_loading false (component w)) (localStorage w)
               (trace w ++ ConsoleLog "API success:" :: verified_events body),
             Normal tt)) as H.
  { rewrite handleVerify_resume_spec. unfold verify_events.
    by rewrite Hev, Hc, Hack. }
  split; [exact H |].
  rewrite (after_child_spec _ _ _ _ _ _ _ _ H). done.
Qed.

Lemma verification_success_returns_to_login_witness :
  let parent := mkWorld (awaiting_code "a@b.com" AuthModal.initial) ∅ [] in
  let parent' :=
    after_child onOTPModal (handleVerify_resume acknowledged_reply)
      (typing "123456") parent in
  handleVerify_resume acknowledged_reply (typing "123456")
  = (mkWorld (set_loading false (component (typing "123456"))) ∅
       ([] ++ ConsoleLog "API success:"
           :: verified_events (JObj [("success", JBool true)])),
     Normal tt)
  ∧ component parent' = back_to_login (component parent)
  ∧ trace parent'
    = ([] ++ [Toast "Email verified!" (JStr "You can now sign in to your account.") false])%list.
Proof.
  apply (verification_success_returns_to_login
           (Response.mk 200 (Normal (JObj [("success", JBool true)]))
              (Throw body_already_read))
           (JObj [("success", JBool true)]) (typing "123456")
           (mkWorld (awaiting_code "a@b.com" AuthModal.initial) ∅ []));
    [ simpl; lia | reflexivity .. ].
Defined.

(** However a verification fails (no response, a rejection, a reply that is
    not acknowledged), the user gets a "Verification failed" toast with a
    description that is never empty, [focus()] is called on the input if it
    is mounted, [isLoading] is lowered, and nothing else moves: the code
    stays as typed, no callback runs, the parent is not told anything.
    Whether the call moves the focus is not stated: the input is rendered
    [disabled] while [isLoading], which [finally] lowers after the call. *)
Theorem verification_failure_keeps_the_code (net : FetchOutcome)
    (w : World Instance) (parent : World AuthModal.State) :
  unacknowledged net = true →
  ∃ shown : string,
    shown ≠ ""
    ∧ handleVerify_resume net w
      = (mkWorld (set_loading false (component w)) (localStorage w)
           (trace w ++ settle_events net
              ++ [ConsoleError "Verification error:";
                  Toast "Verification failed" (JStr shown) true]
              ++ (if inputRef (component w) then [FocusInput] else [])),
         Normal tt)
    ∧ otp (render (exec (handleVerify_resume net) w)) = otp (render w)
    ∧ component (after_child onOTPModal (handleVerify_resume net) w parent)
      = component parent
    ∧ trace (after_child onOTPModal (handleVerify_resume net) w parent)
      = trace parent.
Proof.
  unfold unacknowledged, resend_acknowledged. intros Hu.
  assert (∀ fallback e, fallback ≠ "" → message_or fallback e ≠ "") as Hne.
  { intros fallback e Hf. unfold message_or.
    destruct (String.eqb (message e) "") eqn:E; [done |].
    by apply String.eqb_neq in E. }
  assert (∃ e, verify_events net (inputRef (component w))
               = (settle_events net ++ verify_failed_events e (inputRef (component w)))%list)
    as [e He].
  { unfold verify_events. destruct (settle_completion net) as [response | e].
    - destruct (acknowledged response); [done | by eexists].
    - by eexists. }
  exists (message_or "Invalid or expired OTP code. Please try again." e).
  split; [by apply Hne |].
  assert (handleVerify_resume net w
      = (mkWorld (set_loading false (component w)) (localStorage w)
           (trace w ++ settle_events net
              ++ [ConsoleError "Verification error:";
                  Toast "Verification failed"
                    (JStr (message_or "Invalid or expired OTP code. Please try again." e))
                    true]
              ++ (if inputRef (component w) then [FocusInput] else [])),
         Normal tt)) as H.
  { rewrite handleVerify_resume_spec, He. unfold verify_failed_events. done. }
  split; [exact H |]. split; [unfold exec; by rewrite H |].
  rewrite (after_child_spec _ _ _ _ _ _ _ _ H).
  unfold exec. rewrite deliver_nothing; [done | apply onOTPModal_ignores |].
  rewrite forallb_app, settle_calls_nothing. simpl.
  by destruct (inputRef (component w)).
Qed.
Lemma verification_failure_keeps_the_code_witness :
  let net := json_response 400 (JObj [("error", JStr "Invalid OTP")]) in
  let w := typing "123456" in
  let parent := mkWorld (awaiting_code "a@b.com" AuthModal.initial) ∅ [] in
  ∃ shown : string,
    shown ≠ ""
    ∧ handleVerify_resume net w
      = (mkWorld (set_loading false (component w)) (localStorage w)
           (trace w ++ settle_events net
              ++ [ConsoleError "Verification error:";
                  Toast "Verification failed" (JStr shown) true]
              ++ (if inputRef (component w) then [FocusInput] else [])),
         Normal tt)
    ∧ otp (render (exec (handleVerify_resume net) w)) = otp (render w)
    ∧ component (after_child onOTPModal (handleVerify_resume net) w parent)
      = component parent
    ∧ trace (after_child onOTPModal (handleVerify_resume net) w parent)
      = trace parent.
Proof.
  apply (verification_failure_keeps_the_code
           (json_response 400 (JObj [("error", JStr "Invalid OTP")]))
           (typing "123456")
           (mkWorld (awaiting_code "a@b.com" AuthModal.initial) ∅ [])).
  reflexivity.
Defined.

Lemma run_snoc env email (w : World Instance) (inputs : list Input) (i : Input) :
  run env email w (inputs ++ [i])%list = step env email (run env email w inputs) i.
Proof. unfold run. by rewrite fold_left_app. Qed.

Lemma reachable_step env email (w : World Instance) (i : Input) :
  reachable env email w → reachable env email (step env email w i).
Proof.
  intros (ls & inputs & ->). exists ls, (inputs ++ [i])%list. by rewrite run_snoc.
Qed.

Lemma reachable_run env email (w : World Instance) (inputs : list Input) :
  reachable env email w → reachable env email (run env email w inputs).
Proof.
  revert w. induction inputs as [| i inputs IH]; intros w Hw; [done |].
  simpl. apply IH. by apply reachable_step.
Qed.

(** One firing of the running timer, on the instance. *)
Lemma tick_counts_down env email (w : World Instance) (h : nat) :
  cooldown_ok (component w) → h ∈ intervals (component w) →
  let c' := component (step env email w (Tick h)) in
  timeLeft (hooks c') = timeLeft (hooks (component w)) - 1
  ∧ intervals c' = (if timeLeft (hooks c') =? 0 then ∅ else {[h]})
  ∧ countdownRef c' = (if timeLeft (hooks c') =? 0 then None else Some h)
  ∧ isResending (hooks c') = false.
Proof.
  intros Hw Hin.
  destruct (running_is_counting _ h Hw Hin) as (Hh & Href & Hint & Ht & Hr).
  rewrite tick_spec. rewrite decide_True by done. simpl.
  unfold ticked. rewrite Href. simpl.
  assert ((h =? 0)%nat = false) as -> by (apply Nat.eqb_neq; lia). simpl.
  destruct (timeLeft (hooks (component w)) <=? 1) eqn:Hle; simpl.
  - apply Z.leb_le in Hle. rewrite Hint.
    assert (timeLeft (hooks (component w)) = 1) as -> by lia. simpl.
    repeat split; try done. apply difference_diag_L.
  - apply Z.leb_gt in Hle.
    assert ((timeLeft (hooks (component w)) - 1 =? 0) = false) as ->
      by (apply Z.eqb_neq; lia).
    repeat split; done.
Qed.

(** The cooldown, run.  From any reachable state in which the timer [h]
    runs, [k] firings, for [k] up to the seconds left, take exactly [k] off;
    the timer keeps running until the count is 0 and is gone then.  A resend
    click is ignored as long as seconds are left, and the click after the
    last firing sends a request. *)
Theorem countdown_runs_down env email (w : World Instance) (h : nat) (k : nat) :
  reachable env email w →
  h ∈ intervals (component w) →
  Z.of_nat k ≤ timeLeft (render w) →
  let w' := run env email w (replicate k (Tick h)) in
  timeLeft (render w') = timeLeft (render w) - Z.of_nat k
  ∧ intervals (component w') = (if timeLeft (render w') =? 0 then ∅ else {[h]})
  ∧ step env email w' ClickResend
    = (if timeLeft (render w') =? 0
       then mkWorld (awaiting_resend (set_resending true (component w')))
              (localStorage w')
              (trace w' ++ [Fetch (resend_request env (localStorage w') email)])
       else w').
Proof.
  intros Hreach Hin Hk w'. subst w'.
  assert (∀ k (w : World Instance),
            reachable env email w → h ∈ intervals (component w) →
            Z.of_nat k ≤ timeLeft (render w) →
            let w' := run env email w (replicate k (Tick h)) in
            reachable env email w'
            ∧ timeLeft (render w') = timeLeft (render w) - Z.of_nat k
            ∧ intervals (component w')
              = (if timeLeft (render w') =? 0 then ∅ else {[h]})
            ∧ isResending (render w') = false) as Hgen.
  { clear. intros k. induction k as [| k IH]; intros w Hreach Hin Hk.
    - simpl. pose proof (reachable_cooldown_ok _ _ _ Hreach) as Hok.
      destruct (running_is_counting _ h Hok Hin) as (_ & _ & Hint & Ht & Hr).
      unfold render. repeat split; try done; try lia.
      assert ((timeLeft (hooks (component w)) =? 0) = false) as ->
          by (apply Z.eqb_neq; lia).
      done.
    - simpl. pose proof (reachable_cooldown_ok _ _ _ Hreach) as Hok.
      destruct (tick_counts_down env email w h Hok Hin) as (Ht & Hint & _ & Hr).
      unfold render in *.
      destruct (decide (k = 0%nat)) as [-> | Hk0].
      + simpl. repeat split; try done; try lia. by apply reachable_step.
      + assert ((timeLeft (hooks (component (step env email w (Tick h)))) =? 0) = false) as E
          by (apply Z.eqb_neq; lia).
        rewrite E in Hint.
        destruct (IH (step env email w (Tick h))) as (Hr' & Ht' & Hint' & Hres');
          [ by apply reachable_step | rewrite Hint; by apply elem_of_singleton
          | unfold render; lia |].
        unfold render in *. repeat split; try done. lia. }
  destruct (Hgen k w Hreach Hin Hk) as (Hr' & Ht' & Hint' & Hres').
  repeat split; try done.
  rewrite click_resend_spec, Hres'. simpl.
  pose proof (reachable_cooldown_ok _ _ _ Hreach) as Hok.
  destruct (running_is_counting _ h Hok Hin) as (_ & _ & _ & Ht & _).
  unfold render in *.
  destruct (timeLeft (hooks (component (run env email w (replicate k (Tick h))))) =? 0) eqn:E.
  - apply Z.eqb_eq in E. rewrite E. done.
  - apply Z.eqb_neq in E.
    assert ((0 <? timeLeft (hooks (component (run env email w (replicate k (Tick h)))))) = true)
      as -> by (apply Z.ltb_lt; lia).
    done.
Qed.

Lemma countdown_runs_down_witness :
  let w := one_cooldown 0 in
  let w' := run dev "a@b.com" w (replicate 60 (Tick 1%nat)) in
  timeLeft (render w') = timeLeft (render w) - Z.of_nat 60
  ∧ intervals (component w') = (if timeLeft (render w') =? 0 then ∅ else {[1%nat]})
  ∧ step dev "a@b.com" w' ClickResend
    = (if timeLeft (render w') =? 0
       then mkWorld (awaiting_resend (set_resending true (component w')))
              (localStorage w')
              (trace w' ++ [Fetch (resend_request dev (localStorage w') "a@b.com")])
       else w').
Proof.
  apply (countdown_runs_down dev "a@b.com" (one_cooldown 0) 1 60).
  - by exists ∅, [ClickResend; ResendSettles acknowledged_reply].
  - replace (intervals (component (one_cooldown 0))) with ({[1%nat]} : gset nat)
      by (vm_compute; reflexivity).
    by apply elem_of_singleton.
  - vm_compute. congruence.
Defined.

(** Unmounting stops the countdown: in every reachable state the cleanup of
    the effect leaves no interval timer running; nothing else changes. *)
Theorem cleanup_stops_the_timer env email (w : World Instance) :
  reachable env email w →
  let w' := exec (cleanup) w in
  intervals (component w') = ∅
  ∧ hooks (component w') = hooks (component w)
  ∧ trace w' = trace w ∧ localStorage w' = localStorage w.
Proof.
  intros Hw%reachable_cooldown_ok.
  unfold cleanup, clear_countdown, clearInterval. unfold_monad. simpl.
  destruct Hw as (_ & [(Href & Hint & _) | (h & Hh & Href & Hint & _)] & _);
    rewrite Href; simpl.
  - done.
  - assert ((h =? 0)%nat = false) as -> by (apply Nat.eqb_neq; lia). simpl.
    rewrite Hint. repeat split. apply difference_diag_L.
Qed.

Lemma cleanup_stops_the_timer_witness :
  let w' := exec cleanup (one_cooldown 7) in
  intervals (component w') = ∅
  ∧ hooks (component w') = hooks (component (one_cooldown 7))
  ∧ trace w' = trace (one_cooldown 7)
  ∧ localStorage w' = localStorage (one_cooldown 7).
Proof.
  apply (cleanup_stops_the_timer dev "a@b.com" (one_cooldown 7)).
  by exists ∅, ([ClickResend; ResendSettles acknowledged_reply]
                 ++ replicate 7 (Tick 1%nat))%list.
Defined.

(** Resends do not overlap.  In every reachable state at most one resend is
    awaiting its reply, exactly while [isResending]; while it is, no
    countdown is running.  When it settles without acknowledgement the
    cooldown is not armed, so the next click sends a request at once. *)
Theorem one_resend_at_a_time env email (w : World Instance) :
  reachable env email w →
  (resending (component w) ≤ 1)%nat
  ∧ (isResending (render w) = true ↔ resending (component w) = 1%nat)
  ∧ (isResending (render w) = true →
     timeLeft (render w) = 0 ∧ intervals (component w) = ∅)
  ∧ (∀ net,
       isResending (render w) = true →
       unacknowledged net = true →
       let w1 := step env email w (ResendSettles net) in
       isResending (render w1) = false
       ∧ timeLeft (render w1) = 0
       ∧ intervals (component w1) = ∅
       ∧ step env email w1 ClickResend
         = mkWorld (awaiting_resend (set_resending true (component w1)))
             (localStorage w1)
             (trace w1 ++ [Fetch (resend_request env (localStorage w1) email)])).
Proof.
  intros Hw%reachable_cooldown_ok.
  pose proof Hw as (_ & Hphase & Hres & Hfly). unfold render.
  destruct (isResending (hooks (component w))) eqn:Hr.
  - specialize (Hfly eq_refl).
    assert (intervals (component w) = ∅) as Hint.
    { destruct Hphase as [(_ & ? & _) | (h & _ & _ & _ & ?)]; [done | lia]. }
    rewrite Hres. split; [lia |]. split; [done |]. split; [done |].
    intros net _ Hu. unfold unacknowledged in Hu. apply negb_true_iff in Hu.
    rewrite resend_settles_spec, Hres, Hu. simpl.
    split; [done |]. split; [done |]. split; [done |].
    rewrite click_resend_spec. unfold render. simpl. by rewrite Hfly.
  - rewrite Hres. split; [lia |]. split; [done |]. split; done.
Qed.
Lemma one_resend_at_a_time_witness :
  let w := run dev "a@b.com" (mkWorld initial ∅ []) [ClickResend] in
  (resending (component w) ≤ 1)%nat
  ∧ (isResending (render w) = true ↔ resending (component w) = 1%nat)
  ∧ (isResending (render w) = true →
     timeLeft (render w) = 0 ∧ intervals (component w) = ∅)
  ∧ (∀ net,
       isResending (render w) = true →
       unacknowledged net = true →
       let w1 := step dev "a@b.com" w (ResendSettles net) in
       isResending (render w1) = false
       ∧ timeLeft (render w1) = 0
       ∧ intervals (component w1) = ∅
       ∧ step dev "a@b.com" w1 ClickResend
         = mkWorld (awaiting_resend (set_resending true (component w1)))
             (localStorage w1)
             (trace w1 ++ [Fetch (resend_request dev (localStorage w1) "a@b.com")])).
Proof.
  apply (one_resend_at_a_time dev "a@b.com"
           (run dev "a@b.com" (mkWorld initial ∅ []) [ClickResend])).
  by exists ∅, [ClickResend].
Defined.

End VerificationFlow.

(* ===================================================================== *)
(** ** Further properties of the recovery flow and the page *)
(* ===================================================================== *)

(** A submission of the recovery form, start to end.  One request for the
    email of the render goes out.  If it resolves, whatever the body, the
    flow is in [Sent]; if it fails, the success flag is left as it was and
    the toast carries the message of the error, or a fixed text when that is
    empty.  Either way [isLoading] is lowered and the email stays in the
    field. *)
Theorem forgot_submit_outcomes env (net : FetchOutcome)
    (w : World ForgotPasswordModal.State) :
  ForgotPasswordModal.handleSubmit env (component w) net w
  = (mkWorld (forgot_settled net (component w)) (localStorage w)
       (trace w ++ PreventDefault
          :: Fetch (forgot_request env (localStorage w)
                      (ForgotPasswordModal.email (component w)))
          :: forgot_events net),
     Normal tt)
  ∧ (∀ data, settle_completion net = Normal data →
       ForgotPasswordModal.phase (forgot_settled net (component w))
       = ForgotPasswordModal.Sent)
  ∧ (∀ e, settle_completion net = Throw e →
       ForgotPasswordModal.isSuccess (component w) = false →
       ForgotPasswordModal.phase (forgot_settled net (component w))
       = ForgotPasswordModal.Entering).
Proof.
  split; [| split].
  - unfold ForgotPasswordModal.handleSubmit, ForgotPasswordModal.handleSubmit_begin,
      ForgotPasswordModal.handleSubmit_resume, forgotPassword_call,
      ForgotPasswordModal.setIsLoading, ForgotPasswordModal.setIsSuccess.
    step_request. simpl. unfold forgot_settled, forgot_events, forgot_request.
    destruct (settle_completion net) as [data | e]; simpl.
    + rewrite <- !app_assoc. reflexivity.
    + unfold or_else. simpl.
      destruct (String.eqb (message e) ""); simpl; rewrite <- !app_assoc; reflexivity.
  - intros data H. unfold forgot_settled, ForgotPasswordModal.phase. by rewrite H.
  - intros e H Hs. unfold forgot_settled, ForgotPasswordModal.phase. simpl.
    by rewrite H, Hs.
Qed.

(** Signing out: the token is removed whatever the page state was, the page
    is no longer authenticated and has no user, the header gets no user, and
    the next request (without headers of its own) carries no
    [Authorization]. *)
Theorem logout_clears_session env endpoint options (w : World Index.State) :
  Options.headers options = None →
  let w' := exec Index.handleLogout w in
  localStorage w' !! "auth_token" = None
  ∧ Index.isAuthenticated (component w') = false
  ∧ Index.user (component w') = JUndefined
  ∧ Index.header_user (component w') = Normal JUndefined
  ∧ completion isAuthenticated w' = Normal false
  ∧ Request.headers (build_request env (localStorage w') endpoint options)
      !! "Authorization" = None
  ∧ trace w'
    = (trace w ++ [Toast "Signed out"
                     (JStr "You have been successfully signed out.") false])%list.
Proof.
  intros Hh. unfold Index.handleLogout, removeToken, Index.setUser,
    Index.setIsAuthenticated, isAuthenticated.
  unfold_monad. simpl. rewrite !lookup_delete_eq.
  repeat split; try done.
  unfold build_request. rewrite lookup_add_auth, lookup_delete_eq. simpl.
  unfold spread_headers. rewrite Hh. simpl. by rewrite (left_id_L ∅ (∪)).
Qed.

Lemma logout_clears_session_witness :
  let w' := exec Index.handleLogout signed_in_page in
  localStorage w' !! "auth_token" = None
  ∧ Index.isAuthenticated (component w') = false
  ∧ Index.user (component w') = JUndefined
  ∧ Index.header_user (component w') = Normal JUndefined
  ∧ completion isAuthenticated w' = Normal false
  ∧ Request.headers (build_request dev (localStorage w') "/users/me" Options.empty)
      !! "Authorization" = None
  ∧ trace w'
    = [Toast "Signed out" (JStr "You have been successfully signed out.") false].
Proof.
  apply (logout_clears_session dev "/users/me" Options.empty signed_in_page).
  reflexivity.
Defined.


(** What the header is given after a login, when the token and the
    [first_name] and [last_name] properties at the top level of the login
    body have string forms.  The name is put together from the string forms
    of the two, so a property the body lacks reads "undefined"; the role is
    the body's [role] as it came.  For a body that nests these under [user],
    the shape [handleRegister] reads, the name is "undefined undefined". *)
Theorem header_shows_the_login_body env email password (r : Response.t)
    (body : JSValue) (t first last : string) (w : World AuthModal.State)
    (page : World Index.State) :
  200 ≤ Response.status r ≤ 299 →
  body_of r = Some body →
  truthy (get body "token") = true →
  ToString (get body "token") = Some t →
  ToString (get body "first_name") = Some first →
  ToString (get body "last_name") = Some last →
  let page' :=
    after_child Index.onAuthModal
      (AuthModal.handleLogin env email password (Responded r)) w page in
  Index.header_user (component page')
  = Normal (JObj [("name", JStr (first +:+ " " +:+ last));
                  ("role", get body "role")]).
Proof.
  intros Hok Hb Ht Hs Hfirst Hlast page'. subst page'.
  pose proof (login_with_token env email password r body t w Hok Hb Ht Hs) as H.
  rewrite (after_child_spec _ _ _ _ _ _ _ _ H).
  destruct body as [| | | | | | fields]; try done.
  unfold exec. simpl. unfold Index.header_user. simpl.
  rewrite !own_filter_other by done. simpl in Hfirst, Hlast.
  by rewrite Hfirst, Hlast.
Qed.

Lemma header_shows_the_login_body_witness :
  Index.header_user
    (component
       (after_child Index.onAuthModal
          (AuthModal.handleLogin dev "a@b.com" "secret"
             (json_response 200 sample_signup))
          at_rest fresh_page))
  = Normal (JObj [("name", JStr "undefined undefined"); ("role", JUndefined)]).
Proof.
  apply (header_shows_the_login_body dev "a@b.com" "secret"
           (Response.mk 200 (Normal sample_signup) (Throw body_already_read))
           sample_signup "t0k3n" "undefined" "undefined" at_rest fresh_page);
    [ simpl; lia | reflexivity .. ].
Defined.
